(** * Playready Sports: the order-management backend of [app.py]

    A shallow embedding of the Flask application in [src/app.py]: the five
    SQLAlchemy models as records, the database as five tables of rows, the
    Flask session as an optional pair of user id and role, and every JSON
    endpoint as a function from the request, the environment (clock and
    random token) and the current state to an outcome: either a response with
    the committed state, or an exception that escapes the handler (the request
    then ends in a 500 and the uncommitted work is rolled back).

    [db.Float] columns and JSON numbers are IEEE 754 binary64 values, as
    Python's [float]; integer columns are [Z]; naive datetimes are [Z]
    (a count of microseconds). *)

From Stdlib Require Import ZArith List String Bool Lia.
From Stdlib Require Import PrimFloat FloatOps FloatAxioms.
From Stdlib Require Import Permutation Sorted.
Import ListNotations.

Local Open Scope Z_scope.
Local Open Scope string_scope.

(** ** Python values *)

Definition datetime := Z.

(** Truth value of an optional string ([data.get('coupon_code')]): [None]
    and the empty string are false. *)
Definition str_truthy (s : option string) : bool :=
  match s with
  | Some "" => false
  | Some _ => true
  | None => false
  end.

(** Truth value of a nullable [Float] column: [None] and zero (of either
    sign) are false. *)
Definition float_truthy (x : option float) : bool :=
  match x with
  | Some f => negb (PrimFloat.eqb f 0%float)
  | None => false
  end.

(** Truth value of a nullable [Integer] column. *)
Definition int_truthy (x : option Z) : bool :=
  match x with
  | Some n => negb (n =? 0)%Z
  | None => false
  end.

(** [min(a, b)] on two floats: Python keeps the first argument unless the
    second is strictly smaller. *)
Definition py_min (a b : float) : float :=
  if PrimFloat.ltb b a then b else a.

(** [dict.get(key, default)]. *)
Definition get_or {A : Type} (field : option A) (default : A) : A :=
  match field with
  | Some a => a
  | None => default
  end.

(** ** Database models *)

Module User.
Record t := mk {
  id : Z;
  phone : string;
  name : option string;
  email : option string;
  password_hash : option string;
  role : string;
  created_at : datetime
}.

Definition with_role (r : string) (u : t) : t :=
  mk (id u) (phone u) (name u) (email u) (password_hash u) r (created_at u).
End User.

Module Partner.
Record t := mk {
  id : Z;
  user_id : Z;
  business_name : string;
  address : string;
  city : string;
  pincode : string;
  gst_number : option string;
  bank_account : string;
  ifsc_code : string;
  status : string;
  commission_rate : float;
  rating : float;
  total_orders : Z;
  created_at : datetime
}.

Definition with_status (s : string) (p : t) : t :=
  mk (id p) (user_id p) (business_name p) (address p) (city p) (pincode p)
     (gst_number p) (bank_account p) (ifsc_code p) s (commission_rate p)
     (rating p) (total_orders p) (created_at p).

Definition with_total_orders (n : Z) (p : t) : t :=
  mk (id p) (user_id p) (business_name p) (address p) (city p) (pincode p)
     (gst_number p) (bank_account p) (ifsc_code p) (status p)
     (commission_rate p) (rating p) n (created_at p).
End Partner.

Module Service.
Record t := mk {
  id : Z;
  name : string;
  category : option string;
  base_price : float;
  description : option string;
  image_url : option string;
  is_active : bool
}.
End Service.

Module Order.
Record t := mk {
  id : Z;
  order_number : string;
  customer_id : Z;
  partner_id : option Z;
  service_id : Z;
  racquet_type : option string;
  string_type : option string;
  tension : option string;
  pickup_address : option string;
  pickup_slot : option datetime;
  base_price : float;
  string_price : float;
  discount : float;
  total_price : float;
  status : string;
  payment_status : string;
  payment_method : string;
  pickup_tracking_id : option string;
  delivery_tracking_id : option string;
  created_at : datetime;
  updated_at : datetime;
  completed_at : option datetime
}.

Definition with_status (s : string) (o : t) : t :=
  mk (id o) (order_number o) (customer_id o) (partner_id o) (service_id o)
     (racquet_type o) (string_type o) (tension o) (pickup_address o)
     (pickup_slot o) (base_price o) (string_price o) (discount o)
     (total_price o) s (payment_status o) (payment_method o)
     (pickup_tracking_id o) (delivery_tracking_id o) (created_at o)
     (updated_at o) (completed_at o).

Definition with_partner_id (p : option Z) (o : t) : t :=
  mk (id o) (order_number o) (customer_id o) p (service_id o)
     (racquet_type o) (string_type o) (tension o) (pickup_address o)
     (pickup_slot o) (base_price o) (string_price o) (discount o)
     (total_price o) (status o) (payment_status o) (payment_method o)
     (pickup_tracking_id o) (delivery_tracking_id o) (created_at o)
     (updated_at o) (completed_at o).

Definition with_updated_at (d : datetime) (o : t) : t :=
  mk (id o) (order_number o) (customer_id o) (partner_id o) (service_id o)
     (racquet_type o) (string_type o) (tension o) (pickup_address o)
     (pickup_slot o) (base_price o) (string_price o) (discount o)
     (total_price o) (status o) (payment_status o) (payment_method o)
     (pickup_tracking_id o) (delivery_tracking_id o) (created_at o)
     d (completed_at o).

Definition with_completed_at (d : option datetime) (o : t) : t :=
  mk (id o) (order_number o) (customer_id o) (partner_id o) (service_id o)
     (racquet_type o) (string_type o) (tension o) (pickup_address o)
     (pickup_slot o) (base_price o) (string_price o) (discount o)
     (total_price o) (status o) (payment_status o) (payment_method o)
     (pickup_tracking_id o) (delivery_tracking_id o) (created_at o)
     (updated_at o) d.
End Order.

Module Coupon.
Record t := mk {
  id : Z;
  code : string;
  discount_type : string;
  discount_value : float;
  min_order_value : float;
  max_discount : option float;
  valid_from : option datetime;
  valid_until : datetime;
  usage_limit : option Z;
  usage_count : Z;
  is_active : bool
}.

Definition with_usage_count (n : Z) (c : t) : t :=
  mk (id c) (code c) (discount_type c) (discount_value c)
     (min_order_value c) (max_discount c) (valid_from c) (valid_until c)
     (usage_limit c) n (is_active c).
End Coupon.

(** ** Tables

    A table is the list of its rows in insertion (rowid) order; each row
    carries its integer primary key. *)

Section Table.
Context {Row : Type} (pk : Row -> Z).

(** [Model.query.get(i)]. *)
Definition get (t : list Row) (i : Z) : option Row :=
  find (fun r => (pk r =? i)%Z) t.

(** The key the storage gives the next inserted row. *)
Definition next_pk (t : list Row) : Z :=
  1 + fold_right Z.max 0 (map pk t).

(** The [UPDATE ... WHERE id = i] that a commit issues for a modified
    object. *)
Definition update (t : list Row) (i : Z) (f : Row -> Row) : list Row :=
  map (fun r => if (pk r =? i)%Z then f r else r) t.
End Table.

Record Db := mkDb {
  users : list User.t;
  partners : list Partner.t;
  services : list Service.t;
  orders : list Order.t;
  coupons : list Coupon.t
}.

Definition with_users (l : list User.t) (d : Db) : Db :=
  mkDb l (partners d) (services d) (orders d) (coupons d).
Definition with_partners (l : list Partner.t) (d : Db) : Db :=
  mkDb (users d) l (services d) (orders d) (coupons d).
Definition with_services (l : list Service.t) (d : Db) : Db :=
  mkDb (users d) (partners d) l (orders d) (coupons d).
Definition with_orders (l : list Order.t) (d : Db) : Db :=
  mkDb (users d) (partners d) (services d) l (coupons d).
Definition with_coupons (l : list Coupon.t) (d : Db) : Db :=
  mkDb (users d) (partners d) (services d) (orders d) l.

(** ** Requests, responses and the environment *)

(** The Flask session: empty, or the pair that [register] and [login] store
    ([session['user_id']] and [session['role']] are always set together). *)
Module Session.
Record t := mk {
  user_id : Z;
  role : string
}.
End Session.

Definition State : Type := Db * option Session.t.

(** What a handler reads from outside the request and the database. *)
Record Env := mkEnv {
  (** [datetime.utcnow()]; a request lasts an instant, every reading of the
      clock within one request gives this value *)
  utcnow : datetime;
  (** [datetime.now().strftime('%Y%m%d')] *)
  today : string;
  (** [secrets.token_hex(3).upper()] *)
  token_hex : string;
  (** werkzeug's salted hash and its check *)
  generate_password_hash : string -> string;
  check_password_hash : string -> string -> bool
}.

(** The values [jsonify] is given. [JIso d] stands for [d.isoformat()] and
    [JFmt p x s] for the f-string [f'{p}{x}{s}'] with a float in its hole. *)
#[local] Unset Elimination Schemes.
Inductive json :=
| JNull
| JBool (b : bool)
| JInt (n : Z)
| JFloat (x : float)
| JStr (s : string)
| JIso (d : datetime)
| JFmt (prefix : string) (x : float) (suffix : string)
| JList (l : list json)
| JObj (fields : list (string * json)).
#[local] Set Elimination Schemes.

Definition jstr (s : option string) : json :=
  match s with
  | Some v => JStr v
  | None => JNull
  end.

Definition jiso (d : option datetime) : json :=
  match d with
  | Some v => JIso v
  | None => JNull
  end.

(** A Flask return value: the body and the status code ([200] when the
    handler gives none). *)
Definition Response : Type := json * Z.

Definition status_code (r : Response) : Z := snd r.

Definition error (msg : string) (code : Z) : Response :=
  (JObj [("error", JStr msg)], code).

Definition message (msg : string) (code : Z) : Response :=
  (JObj [("message", JStr msg)], code).

(** Exceptions that escape a handler. *)
Inductive Exn := KeyError | TypeError | ValueError | AttributeError | IntegrityError.

Inductive Result (A : Type) :=
| Ok (a : A)
| Raise (e : Exn).
Arguments Ok {A} a.
Arguments Raise {A} e.

Definition bind {A B : Type} (m : Result A) (k : A -> Result B) : Result B :=
  match m with
  | Ok a => k a
  | Raise e => Raise e
  end.

Notation "'let*' x ':=' m 'in' k" := (bind m (fun x => k))
  (at level 10, x pattern, m at level 100, k at level 200).

(** [data[key]]: a missing key raises [KeyError]. *)
Definition key {A : Type} (field : option A) : Result A :=
  match field with
  | Some a => Ok a
  | None => Raise KeyError
  end.

(** [obj.attr] through a relationship or a query result that may be [None]. *)
Definition attr {A : Type} (obj : option A) : Result A :=
  match obj with
  | Some a => Ok a
  | None => Raise AttributeError
  end.

(** A list comprehension whose element expression may raise. *)
Fixpoint comprehension {A B : Type} (f : A -> Result B) (l : list A) : Result (list B) :=
  match l with
  | [] => Ok []
  | a :: rest =>
      let* b := f a in
      let* bs := comprehension f rest in
      Ok (b :: bs)
  end.

Definition Outcome : Type := Result (State * Response).

(** The JSON bodies of the requests, field by field; [None] is an absent
    key. *)
Module RegisterData.
Record t := mk {
  phone : option string;
  password : option string;
  name : option string;
  email : option string;
  role : option string
}.
End RegisterData.

Module LoginData.
Record t := mk {
  phone : option string;
  password : option string
}.
End LoginData.

(** [data['pickup_slot']] as [datetime.fromisoformat] sees it. *)
Inductive SlotField :=
| SlotAbsent
| SlotMalformed
| SlotIso (d : datetime).

Module OrderData.
Record t := mk {
  service_id : option Z;
  racquet_type : option string;
  string_type : option string;
  tension : option string;
  pickup_address : option string;
  pickup_slot : SlotField;
  string_price : option float;
  coupon_code : option string;
  payment_method : option string
}.
End OrderData.

Module CouponData.
Record t := mk {
  code : option string;
  order_value : option float
}.
End CouponData.

Module PartnerData.
Record t := mk {
  business_name : option string;
  address : option string;
  city : option string;
  pincode : option string;
  gst_number : option string;
  bank_account : option string;
  ifsc_code : option string
}.
End PartnerData.

Module StatusData.
Record t := mk {
  status : option string
}.
End StatusData.

Module AssignData.
Record t := mk {
  (** the outer option is the key, the inner one a JSON [null] *)
  partner_id : option (option Z)
}.
End AssignData.

(** ** Authentication endpoints *)

Definition user_public (u : User.t) : json :=
  JObj [("id", JInt (User.id u));
        ("name", jstr (User.name u));
        ("phone", JStr (User.phone u));
        ("role", JStr (User.role u))].

(** [User.query.filter_by(phone=phone).first()] *)
Definition user_by_phone (db : Db) (phone : string) : option User.t :=
  find (fun u => User.phone u =? phone) (users db).

(** [POST /api/auth/register] *)
Definition register (env : Env) (data : RegisterData.t) (st : State) : Outcome :=
  let db := fst st in
  let* phone := key (RegisterData.phone data) in
  match user_by_phone db phone with
  | Some _ => Ok (st, error "Phone number already registered" 400)
  | None =>
      let* password := key (RegisterData.password data) in
      let user :=
        User.mk (next_pk User.id (users db))
                phone
                (RegisterData.name data)
                (RegisterData.email data)
                (Some (generate_password_hash env password))
                (get_or (RegisterData.role data) "customer")
                (utcnow env) in
      Ok ((with_users (users db ++ [user]) db,
           Some (Session.mk (User.id user) (User.role user))),
          (JObj [("message", JStr "Registration successful");
                 ("user", user_public user)], 201))
  end.

(** [user.check_password(password)] *)
Definition check_password (env : Env) (u : User.t) (password : string) : Result bool :=
  let* pwhash := attr (User.password_hash u) in
  Ok (check_password_hash env pwhash password).

(** [POST /api/auth/login] *)
Definition login (env : Env) (data : LoginData.t) (st : State) : Outcome :=
  let db := fst st in
  let* phone := key (LoginData.phone data) in
  match user_by_phone db phone with
  | None => Ok (st, error "Invalid credentials" 401)
  | Some user =>
      let* password := key (LoginData.password data) in
      let* ok := check_password env user password in
      if ok then
        Ok ((db, Some (Session.mk (User.id user) (User.role user))),
            (JObj [("message", JStr "Login successful");
                   ("user", user_public user)], 200))
      else Ok (st, error "Invalid credentials" 401)
  end.

(** [POST /api/auth/logout] *)
Definition logout (st : State) : Outcome :=
  Ok ((fst st, None), message "Logout successful" 200).

(** [GET /api/auth/me] *)
Definition get_current_user (st : State) : Outcome :=
  match snd st with
  | None => Ok (st, error "Not authenticated" 401)
  | Some sess =>
      let* user := attr (get User.id (users (fst st)) (Session.user_id sess)) in
      Ok (st, (JObj [("id", JInt (User.id user));
                     ("name", jstr (User.name user));
                     ("phone", JStr (User.phone user));
                     ("email", jstr (User.email user));
                     ("role", JStr (User.role user))], 200))
  end.

(** ** Customer endpoints *)

(** [GET /api/services] *)
Definition get_services (st : State) : Outcome :=
  let listed := filter Service.is_active (services (fst st)) in
  Ok (st, (JList (map (fun s =>
             JObj [("id", JInt (Service.id s));
                   ("name", JStr (Service.name s));
                   ("category", jstr (Service.category s));
                   ("base_price", JFloat (Service.base_price s));
                   ("description", jstr (Service.description s));
                   ("image_url", jstr (Service.image_url s))]) listed), 200)).

(** [Coupon.query.filter_by(code=code, is_active=True).first()] *)
Definition coupon_by_code (db : Db) (code : string) : option Coupon.t :=
  find (fun c => (Coupon.code c =? code) && Coupon.is_active c) (coupons db).

(** The discount a coupon gives on an order value: the [if]/[else] block
    that [create_order] (on [base_price + string_price]) and
    [validate_coupon] (on [order_value]) both contain. *)
Definition coupon_discount (coupon : Coupon.t) (order_value : float) : float :=
  if Coupon.discount_type coupon =? "percentage" then
    let discount := (order_value * (Coupon.discount_value coupon / 100))%float in
    if float_truthy (Coupon.max_discount coupon)
    then py_min discount (get_or (Coupon.max_discount coupon) 0%float)
    else discount
  else Coupon.discount_value coupon.

(** [datetime.fromisoformat(data['pickup_slot'])] *)
Definition fromisoformat (slot : SlotField) : Result datetime :=
  match slot with
  | SlotAbsent => Raise KeyError
  | SlotMalformed => Raise ValueError
  | SlotIso d => Ok d
  end.

(** The pricing step of [create_order]: the discount, and the coupon table
    with the usage count of an applied coupon raised. *)
Definition apply_coupon (env : Env) (db : Db) (data : OrderData.t)
    (base_price string_price : float) : float * list Coupon.t :=
  if str_truthy (OrderData.coupon_code data) then
    match coupon_by_code db (get_or (OrderData.coupon_code data) "") with
    | Some coupon =>
        if (utcnow env <? Coupon.valid_until coupon)%Z then
          (coupon_discount coupon (base_price + string_price)%float,
           update Coupon.id (coupons db) (Coupon.id coupon)
                  (Coupon.with_usage_count (Coupon.usage_count coupon + 1)))
        else (0%float, coupons db)
    | None => (0%float, coupons db)
    end
  else (0%float, coupons db).

(** [POST /api/orders] *)
Definition create_order (env : Env) (data : OrderData.t) (st : State) : Outcome :=
  match snd st with
  | None => Ok (st, error "Not authenticated" 401)
  | Some sess =>
      let db := fst st in
      let* service_id := key (OrderData.service_id data) in
      match get Service.id (services db) service_id with
      | None => Ok (st, error "Service not found" 404)
      | Some service =>
          let order_number := "PLR" ++ today env ++ token_hex env in
          let base_price := Service.base_price service in
          let string_price := get_or (OrderData.string_price data) 0%float in
          let '(discount, coupons') := apply_coupon env db data base_price string_price in
          let total_price := (base_price + string_price - discount)%float in
          let* pickup_slot := fromisoformat (OrderData.pickup_slot data) in
          let order :=
            Order.mk (next_pk Order.id (orders db))
                     order_number
                     (Session.user_id sess)
                     None
                     service_id
                     (OrderData.racquet_type data)
                     (OrderData.string_type data)
                     (OrderData.tension data)
                     (OrderData.pickup_address data)
                     (Some pickup_slot)
                     base_price
                     string_price
                     discount
                     total_price
                     "pending"
                     "pending"
                     (get_or (OrderData.payment_method data) "online")
                     None
                     None
                     (utcnow env)
                     (utcnow env)
                     None in
          (* the commit: [order_number] is unique *)
          if existsb (fun o => Order.order_number o =? order_number) (orders db)
          then Raise IntegrityError
          else
            Ok ((with_orders (orders db ++ [order]) (with_coupons coupons' db),
                 Some sess),
                (JObj [("message", JStr "Order created successfully");
                       ("order_number", JStr order_number);
                       ("order_id", JInt (Order.id order));
                       ("total_price", JFloat total_price)], 201))
      end
  end.

(** [query.order_by(Order.created_at.desc())]: newest first, rows of equal
    age in table order. *)
Fixpoint insert_desc (o : Order.t) (l : list Order.t) : list Order.t :=
  match l with
  | [] => [o]
  | x :: rest =>
      if (Order.created_at x <=? Order.created_at o)%Z
      then o :: l
      else x :: insert_desc o rest
  end.

Definition order_by_created_desc (l : list Order.t) : list Order.t :=
  fold_right insert_desc [] l.

(** The relationships [order.service], [order.customer], [order.partner]. *)
Definition order_service (db : Db) (o : Order.t) : option Service.t :=
  get Service.id (services db) (Order.service_id o).

Definition order_customer (db : Db) (o : Order.t) : option User.t :=
  get User.id (users db) (Order.customer_id o).

Definition order_partner (db : Db) (o : Order.t) : option Partner.t :=
  match Order.partner_id o with
  | Some pid => get Partner.id (partners db) pid
  | None => None
  end.

(** [GET /api/orders/my] *)
Definition get_my_orders (st : State) : Outcome :=
  match snd st with
  | None => Ok (st, error "Not authenticated" 401)
  | Some sess =>
      let db := fst st in
      let mine :=
        order_by_created_desc
          (filter (fun o => (Order.customer_id o =? Session.user_id sess)%Z) (orders db)) in
      let* rows :=
        comprehension (fun o =>
          let* service := attr (order_service db o) in
          Ok (JObj [("id", JInt (Order.id o));
                    ("order_number", JStr (Order.order_number o));
                    ("service_name", JStr (Service.name service));
                    ("status", JStr (Order.status o));
                    ("total_price", JFloat (Order.total_price o));
                    ("pickup_slot", jiso (Order.pickup_slot o));
                    ("created_at", JIso (Order.created_at o))])) mine in
      Ok (st, (JList rows, 200))
  end.

(** The body [get_order_details] answers with. *)
Definition order_details (db : Db) (order : Order.t) (service : Service.t) : json :=
  JObj [("id", JInt (Order.id order));
        ("order_number", JStr (Order.order_number order));
        ("service", JObj [("name", JStr (Service.name service));
                          ("category", jstr (Service.category service))]);
        ("racquet_type", jstr (Order.racquet_type order));
        ("string_type", jstr (Order.string_type order));
        ("tension", jstr (Order.tension order));
        ("pickup_address", jstr (Order.pickup_address order));
        ("pickup_slot", jiso (Order.pickup_slot order));
        ("base_price", JFloat (Order.base_price order));
        ("string_price", JFloat (Order.string_price order));
        ("discount", JFloat (Order.discount order));
        ("total_price", JFloat (Order.total_price order));
        ("status", JStr (Order.status order));
        ("payment_status", JStr (Order.payment_status order));
        ("created_at", JIso (Order.created_at order));
        ("partner", match order_partner db order with
                    | Some p => JObj [("business_name", JStr (Partner.business_name p))]
                    | None => JNull
                    end)].

(** [GET /api/orders/<order_id>] *)
Definition get_order_details (order_id : Z) (st : State) : Outcome :=
  match snd st with
  | None => Ok (st, error "Not authenticated" 401)
  | Some sess =>
      let db := fst st in
      match get Order.id (orders db) order_id with
      | None => Ok (st, error "Order not found" 404)
      | Some order =>
          if (Session.role sess =? "customer")
             && negb (Order.customer_id order =? Session.user_id sess)%Z
          then Ok (st, error "Unauthorized" 403)
          else
            let* service := attr (order_service db order) in
            Ok (st, (order_details db order service, 200))
      end
  end.

(** [POST /api/coupons/validate] *)
Definition validate_coupon (env : Env) (data : CouponData.t) (st : State) : Outcome :=
  let db := fst st in
  let* code := key (CouponData.code data) in
  match coupon_by_code db code with
  | None => Ok (st, error "Invalid coupon code" 404)
  | Some coupon =>
      if (Coupon.valid_until coupon <? utcnow env)%Z then
        Ok (st, error "Coupon has expired" 400)
      else if int_truthy (Coupon.usage_limit coupon)
              && (get_or (Coupon.usage_limit coupon) 0 <=? Coupon.usage_count coupon)%Z then
        Ok (st, error "Coupon usage limit reached" 400)
      else
        let order_value := get_or (CouponData.order_value data) 0%float in
        if PrimFloat.ltb order_value (Coupon.min_order_value coupon) then
          Ok (st, (JObj [("error", JFmt "Minimum order value ₹"
                                        (Coupon.min_order_value coupon)
                                        " required")], 400))
        else
          let discount := coupon_discount coupon order_value in
          Ok (st, (JObj [("valid", JBool true);
                         ("discount", JFloat discount);
                         ("discount_type", JStr (Coupon.discount_type coupon));
                         ("discount_value", JFloat (Coupon.discount_value coupon))], 200))
  end.

(** ** Partner endpoints *)

(** [Partner.query.filter_by(user_id=user_id).first()] *)
Definition partner_by_user (db : Db) (user_id : Z) : option Partner.t :=
  find (fun p => (Partner.user_id p =? user_id)%Z) (partners db).

(** [POST /api/partner/register] *)
Definition register_partner (env : Env) (data : PartnerData.t) (st : State) : Outcome :=
  match snd st with
  | None => Ok (st, error "Not authenticated" 401)
  | Some sess =>
      let db := fst st in
      let* business_name := key (PartnerData.business_name data) in
      let* address := key (PartnerData.address data) in
      let* city := key (PartnerData.city data) in
      let* pincode := key (PartnerData.pincode data) in
      let* bank_account := key (PartnerData.bank_account data) in
      let* ifsc_code := key (PartnerData.ifsc_code data) in
      let partner :=
        Partner.mk (next_pk Partner.id (partners db))
                   (Session.user_id sess)
                   business_name address city pincode
                   (PartnerData.gst_number data)
                   bank_account ifsc_code
                   "pending" 20%float 0%float 0 (utcnow env) in
      let* user := attr (get User.id (users db) (Session.user_id sess)) in
      Ok ((with_users (update User.id (users db) (User.id user) (User.with_role "partner"))
             (with_partners (partners db ++ [partner]) db),
           Some (Session.mk (Session.user_id sess) "partner")),
          message "Partner registration submitted for approval" 201)
  end.

(** The gate that opens every partner and admin handler:
    [if 'user_id' not in session or session['role'] != role:
       return jsonify({'error': 'Unauthorized'}), 403]. *)
Definition role_gate (role : string) (st : State) (k : Session.t -> Outcome) : Outcome :=
  match snd st with
  | None => Ok (st, error "Unauthorized" 403)
  | Some sess =>
      if negb (Session.role sess =? role)
      then Ok (st, error "Unauthorized" 403)
      else k sess
  end.

(** [order.partner_id != partner.id] *)
Definition assigned_to (partner : Partner.t) (o : Order.t) : bool :=
  match Order.partner_id o with
  | Some pid => (pid =? Partner.id partner)%Z
  | None => false
  end.

(** [GET /api/partner/orders] *)
Definition get_partner_orders (status_filter : option string) (st : State) : Outcome :=
  role_gate "partner" st (fun sess =>
    let db := fst st in
    match partner_by_user db (Session.user_id sess) with
    | None => Ok (st, error "Partner profile not found" 404)
    | Some partner =>
        let assigned := filter (assigned_to partner) (orders db) in
        let selected :=
          if str_truthy status_filter
          then filter (fun o => Order.status o =? get_or status_filter "") assigned
          else assigned in
        let* rows :=
          comprehension (fun o =>
            let* customer := attr (order_customer db o) in
            let* service := attr (order_service db o) in
            Ok (JObj [("id", JInt (Order.id o));
                      ("order_number", JStr (Order.order_number o));
                      ("customer_name", jstr (User.name customer));
                      ("service_name", JStr (Service.name service));
                      ("status", JStr (Order.status o));
                      ("total_price", JFloat (Order.total_price o));
                      ("pickup_slot", jiso (Order.pickup_slot o));
                      ("created_at", JIso (Order.created_at o))]))
            (order_by_created_desc selected) in
        Ok (st, (JList rows, 200))
    end).

(** [PUT /api/partner/orders/<order_id>/status] *)
Definition update_order_status (env : Env) (order_id : Z) (data : StatusData.t)
    (st : State) : Outcome :=
  role_gate "partner" st (fun sess =>
    let db := fst st in
    let partner := partner_by_user db (Session.user_id sess) in
    match get Order.id (orders db) order_id with
    | None => Ok (st, error "Order not found" 404)
    | Some order =>
        let* partner := attr partner in
        if negb (assigned_to partner order)
        then Ok (st, error "Order not found" 404)
        else
          let* status := key (StatusData.status data) in
          let delivered := status =? "delivered" in
          let orders' :=
            update Order.id (orders db) (Order.id order) (fun o =>
              let o := Order.with_updated_at (utcnow env) (Order.with_status status o) in
              if delivered then Order.with_completed_at (Some (utcnow env)) o else o) in
          let partners' :=
            if delivered
            then update Partner.id (partners db) (Partner.id partner)
                        (Partner.with_total_orders (Partner.total_orders partner + 1))
            else partners db in
          Ok ((with_partners partners' (with_orders orders' db), snd st),
              message "Order status updated" 200)
    end).

(** ** Admin endpoints *)

(** [GET /api/admin/partners] *)
Definition get_all_partners (st : State) : Outcome :=
  role_gate "admin" st (fun _ =>
    Ok (st, (JList (map (fun p =>
               JObj [("id", JInt (Partner.id p));
                     ("business_name", JStr (Partner.business_name p));
                     ("city", JStr (Partner.city p));
                     ("status", JStr (Partner.status p));
                     ("rating", JFloat (Partner.rating p));
                     ("total_orders", JInt (Partner.total_orders p));
                     ("commission_rate", JFloat (Partner.commission_rate p));
                     ("created_at", JIso (Partner.created_at p))])
               (partners (fst st))), 200))).

(** [PUT /api/admin/partners/<partner_id>/approve] *)
Definition approve_partner (partner_id : Z) (st : State) : Outcome :=
  role_gate "admin" st (fun _ =>
    let db := fst st in
    match get Partner.id (partners db) partner_id with
    | None => Ok (st, error "Partner not found" 404)
    | Some partner =>
        Ok ((with_partners
               (update Partner.id (partners db) (Partner.id partner)
                       (Partner.with_status "approved")) db,
             snd st),
            message "Partner approved" 200)
    end).

(** [GET /api/admin/orders] *)
Definition get_all_orders (status_filter : option string) (st : State) : Outcome :=
  role_gate "admin" st (fun _ =>
    let db := fst st in
    let selected :=
      if str_truthy status_filter
      then filter (fun o => Order.status o =? get_or status_filter "") (orders db)
      else orders db in
    let* rows :=
      comprehension (fun o =>
        let* customer := attr (order_customer db o) in
        let* service := attr (order_service db o) in
        Ok (JObj [("id", JInt (Order.id o));
                  ("order_number", JStr (Order.order_number o));
                  ("customer_name", jstr (User.name customer));
                  ("service_name", JStr (Service.name service));
                  ("partner_name", match order_partner db o with
                                   | Some p => JStr (Partner.business_name p)
                                   | None => JNull
                                   end);
                  ("status", JStr (Order.status o));
                  ("total_price", JFloat (Order.total_price o));
                  ("created_at", JIso (Order.created_at o))]))
        (firstn 100 (order_by_created_desc selected)) in
    Ok (st, (JList rows, 200))).

(** [PUT /api/admin/orders/<order_id>/assign]; the update of the row also
    fires the [onupdate] default of [updated_at]. *)
Definition assign_partner (env : Env) (order_id : Z) (data : AssignData.t)
    (st : State) : Outcome :=
  role_gate "admin" st (fun _ =>
    let db := fst st in
    match get Order.id (orders db) order_id with
    | None => Ok (st, error "Order not found" 404)
    | Some order =>
        let* partner_id := key (AssignData.partner_id data) in
        Ok ((with_orders
               (update Order.id (orders db) (Order.id order) (fun o =>
                  Order.with_updated_at (utcnow env)
                    (Order.with_status "assigned" (Order.with_partner_id partner_id o))))
               db,
             snd st),
            message "Partner assigned successfully" 200)
    end).

(** [db.session.query(db.func.sum(Order.total_price)).scalar() or 0]: the
    sum is taken in table order; an empty table and a zero sum both give 0. *)
Definition total_revenue (db : Db) : float :=
  fold_left PrimFloat.add (map Order.total_price (orders db)) 0%float.

(** [GET /api/admin/analytics] *)
Definition get_analytics (st : State) : Outcome :=
  role_gate "admin" st (fun _ =>
    let db := fst st in
    Ok (st, (JObj [("total_orders", JInt (Z.of_nat (List.length (orders db))));
                   ("total_revenue", JFloat (total_revenue db));
                   ("active_partners",
                    JInt (Z.of_nat (List.length (filter (fun p => Partner.status p =? "approved")
                                                   (partners db)))));
                   ("pending_orders",
                    JInt (Z.of_nat (List.length (filter (fun o => Order.status o =? "pending")
                                                   (orders db)))))], 200))).

(** ** The application *)

Inductive Request :=
| PostAuthRegister (data : RegisterData.t)
| PostAuthLogin (data : LoginData.t)
| PostAuthLogout
| GetAuthMe
| GetServices
| PostOrders (data : OrderData.t)
| GetOrdersMy
| GetOrder (order_id : Z)
| PostCouponsValidate (data : CouponData.t)
| PostPartnerRegister (data : PartnerData.t)
| GetPartnerOrders (status_filter : option string)
| PutPartnerOrderStatus (order_id : Z) (data : StatusData.t)
| GetAdminPartners
| PutAdminPartnerApprove (partner_id : Z)
| GetAdminOrders (status_filter : option string)
| PutAdminOrderAssign (order_id : Z) (data : AssignData.t)
| GetAdminAnalytics.

(** The routing table. *)
Definition handle (env : Env) (req : Request) (st : State) : Outcome :=
  match req with
  | PostAuthRegister data => register env data st
  | PostAuthLogin data => login env data st
  | PostAuthLogout => logout st
  | GetAuthMe => get_current_user st
  | GetServices => get_services st
  | PostOrders data => create_order env data st
  | GetOrdersMy => get_my_orders st
  | GetOrder order_id => get_order_details order_id st
  | PostCouponsValidate data => validate_coupon env data st
  | PostPartnerRegister data => register_partner env data st
  | GetPartnerOrders status_filter => get_partner_orders status_filter st
  | PutPartnerOrderStatus order_id data => update_order_status env order_id data st
  | GetAdminPartners => get_all_partners st
  | PutAdminPartnerApprove partner_id => approve_partner partner_id st
  | GetAdminOrders status_filter => get_all_orders status_filter st
  | PutAdminOrderAssign order_id data => assign_partner env order_id data st
  | GetAdminAnalytics => get_analytics st
  end.

(** The state a request leaves behind: what the handler committed, or the
    state it started from when an exception escaped (the transaction is
    rolled back). *)
Definition state_after (out : Outcome) (st : State) : State :=
  match out with
  | Ok (st', _) => st'
  | Raise _ => st
  end.

(** A client sending requests one after the other, each in its own
    environment. *)
Fixpoint run (reqs : list (Env * Request)) (st : State) : State :=
  match reqs with
  | [] => st
  | (env, req) :: rest => run rest (state_after (handle env req st) st)
  end.

(** [init_db()]: the seed rows, each kind added only when missing. *)
Definition init_db (env : Env) (db : Db) : Db :=
  let users' :=
    match user_by_phone db "9999999999" with
    | Some _ => users db
    | None =>
        (users db ++
         [User.mk (next_pk User.id (users db)) "9999999999" (Some "Admin User") None
                  (Some (generate_password_hash env "admin123")) "admin" (utcnow env)])%list
    end in
  let services' :=
    match services db with
    | [] =>
        [Service.mk 1 "Badminton Restringing" (Some "stringing") 299%float
                    (Some "Professional badminton racquet restringing") None true;
         Service.mk 2 "Tennis Restringing" (Some "stringing") 399%float
                    (Some "Professional tennis racquet restringing") None true;
         Service.mk 3 "Grip Replacement" (Some "grip") 149%float
                    (Some "New grip installation") None true;
         Service.mk 4 "Full Racquet Service" (Some "repair") 599%float
                    (Some "Complete racquet maintenance") None true]
    | _ => services db
    end in
  let coupons' :=
    match coupons db with
    | [] =>
        [Coupon.mk 1 "FIRST50" "percentage" 50%float 0%float (Some 200%float)
                   (Some (utcnow env)) (utcnow env + 30 * 86400 * 1000000)
                   (Some 100) 0 true]
    | _ => coupons db
    end in
  mkDb users' (partners db) services' (orders db) coupons'.

Definition empty_db : Db := mkDb [] [] [] [] [].

(** The check each handler opens with: none, ['user_id' not in session]
    alone, or that together with a test of [session['role']]. *)
Inductive Access :=
| Public
| Authenticated
| HasRole (role : string).

Definition access (req : Request) : Access :=
  match req with
  | PostAuthRegister _ | PostAuthLogin _ | PostAuthLogout
  | GetServices | PostCouponsValidate _ => Public
  | GetAuthMe | PostOrders _ | GetOrdersMy | GetOrder _
  | PostPartnerRegister _ => Authenticated
  | GetPartnerOrders _ | PutPartnerOrderStatus _ _ => HasRole "partner"
  | GetAdminPartners | PutAdminPartnerApprove _ | GetAdminOrders _
  | PutAdminOrderAssign _ _ | GetAdminAnalytics => HasRole "admin"
  end.

(** ** A sample deployment

    The seeded database of a fresh installation and a few requests against
    it, used to run the handlers on concrete inputs. *)

Definition sample_env : Env :=
  mkEnv 1700000000000000 "20231114" "A1B2C3"
        (fun password => "pbkdf2$" ++ password)
        (fun pwhash password => pwhash =? "pbkdf2$" ++ password).

Definition seeded : Db := init_db sample_env empty_db.

(** The first seeded service. *)
Definition badminton : Service.t :=
  Service.mk 1 "Badminton Restringing" (Some "stringing") 299%float
             (Some "Professional badminton racquet restringing") None true.

(** A customer created by [register], as its session records them. *)
Definition sample_customer : Session.t := Session.mk 2 "customer".

Definition sample_signup : RegisterData.t :=
  RegisterData.mk (Some "9000000001") (Some "s3cret") (Some "Asha") None None.

(** A badminton restringing with a 701 string, paid with FIRST50: an order
    value of 1000. *)
Definition sample_order : OrderData.t :=
  OrderData.mk (Some 1) (Some "badminton") (Some "BG65") (Some "24")
               (Some "12 Court Road") (SlotIso 1700086400000000)
               (Some 701%float) (Some "FIRST50") None.

(** A coupon that [validate_coupon] turns down twice over: its single use is
    spent and it asks for an order of 5000. *)
Definition spent_coupon : Coupon.t :=
  Coupon.mk 2 "SPENT" "fixed" 100%float 5000%float None None
            (utcnow sample_env + 86400 * 1000000) (Some 1) 1 true.

Definition spent_db : Db := with_coupons (coupons seeded ++ [spent_coupon]) seeded.

Definition spent_order : OrderData.t :=
  OrderData.mk (Some 1) None None None None (SlotIso 1700086400000000)
               (Some 701%float) (Some "SPENT") None.








(** A workshop owner who signs up and registers as a partner, and the
    session they hold afterwards. *)
Definition partner_signup : RegisterData.t :=
  RegisterData.mk (Some "9000000002") (Some "str1ngs") (Some "Ravi") None None.

Definition partner_profile : PartnerData.t :=
  PartnerData.mk (Some "Ravi Strings") (Some "4 Market Lane") (Some "Pune")
                 (Some "411001") None (Some "0012345678") (Some "HDFC0000001").

Definition sample_partner : Session.t := Session.mk 3 "partner".

Definition delivered : StatusData.t := StatusData.mk (Some "delivered").

(** A day in the life of the deployment: a customer orders, a partner signs
    up, the admin approves the partner and assigns the order, the partner
    logs in. *)
Definition assigned_day : list (Env * Request) :=
  map (fun req => (sample_env, req))
    [PostAuthRegister sample_signup;
     PostOrders sample_order;
     PostAuthLogout;
     PostAuthRegister partner_signup;
     PostPartnerRegister partner_profile;
     PostAuthLogout;
     PostAuthLogin (LoginData.mk (Some "9999999999") (Some "admin123"));
     PutAdminPartnerApprove 1;
     PutAdminOrderAssign 1 (AssignData.mk (Some (Some 1)));
     PostAuthLogout;
     PostAuthLogin (LoginData.mk (Some "9000000002") (Some "str1ngs"))].

Definition assigned_db : Db := fst (run assigned_day (seeded, None)).





(** A user who asks for the partner role at sign-up, after a customer has
    placed an order, and never registers a partner profile. *)
Definition rogue_signup : RegisterData.t :=
  RegisterData.mk (Some "9000000004") (Some "letmein") None None (Some "partner").

Definition rogue_day : list (Env * Request) :=
  map (fun req => (sample_env, req))
    [PostAuthRegister sample_signup;
     PostOrders sample_order;
     PostAuthLogout;
     PostAuthRegister rogue_signup].

Definition rogue_db : Db := fst (run rogue_day (seeded, None)).

(** A partner who sends the registration form twice. *)
Definition eager_day : list (Env * Request) :=
  map (fun req => (sample_env, req))
    [PostAuthRegister partner_signup;
     PostPartnerRegister partner_profile;
     PostPartnerRegister partner_profile].

(** The database after the first of the two registrations. *)
Definition eager_once : Db := fst (run (firstn 2 eager_day) (seeded, None)).

(** ** Conditions on the stored data *)

(** Every table has one row per primary key. *)
Definition keys_unique (db : Db) : Prop :=
  NoDup (map User.id (users db))
  /\ NoDup (map Partner.id (partners db))
  /\ NoDup (map Service.id (services db))
  /\ NoDup (map Order.id (orders db))
  /\ NoDup (map Coupon.id (coupons db)).

(** The pricing columns of an order add up. *)
Definition priced (o : Order.t) : Prop :=
  Order.total_price o =
    (Order.base_price o + Order.string_price o - Order.discount o)%float.

(** The session, when there is one, names a stored user and carries that
    user's stored role. *)
Definition session_known (st : State) : Prop :=
  match snd st with
  | None => True
  | Some sess =>
      exists user,
        get User.id (users (fst st)) (Session.user_id sess) = Some user
        /\ User.role user = Session.role sess
  end.

(** The requests that only read. *)
Definition read_only (req : Request) : bool :=
  match req with
  | GetAuthMe | GetServices | GetOrdersMy | GetOrder _ | PostCouponsValidate _
  | GetPartnerOrders _ | GetAdminPartners | GetAdminOrders _
  | GetAdminAnalytics => true
  | _ => false
  end.

(** What an order is created with and keeps: its key, number, customer,
    service and the four pricing columns. *)
Definition snapshot (o : Order.t)
    : Z * string * Z * Z * (float * float * float * float) :=
  (Order.id o, Order.order_number o, Order.customer_id o, Order.service_id o,
   (Order.base_price o, Order.string_price o, Order.discount o, Order.total_price o)).

(** The admin then hands the order to partner 9, who does not exist, and
    the first partner logs in again. *)
Definition reassigned_day : list (Env * Request) :=
  (assigned_day ++
   map (fun req => (sample_env, req))
     [PostAuthLogout;
      PostAuthLogin (LoginData.mk (Some "9999999999") (Some "admin123"));
      PutAdminOrderAssign 1 (AssignData.mk (Some (Some 9)));
      PostAuthLogout;
      PostAuthLogin (LoginData.mk (Some "9000000002") (Some "str1ngs"))])%list.

Definition reassigned_db : Db := fst (run reassigned_day (seeded, None)).

(** The next day: a later clock and another token. *)
Definition next_day_env : Env :=
  mkEnv (utcnow sample_env + 86400 * 1000000) "20231115" "D4E5F6"
        (generate_password_hash sample_env) (check_password_hash sample_env).

Definition admin_session : Session.t := Session.mk 1 "admin".

(** The instant at which the seeded coupon's [valid_until] is reached. *)
Definition expiry_env : Env :=
  mkEnv (utcnow sample_env + 30 * 86400 * 1000000) "20231214" "0A1B2C"
        (generate_password_hash sample_env) (check_password_hash sample_env).

Definition first50 : Coupon.t :=
  Coupon.mk 1 "FIRST50" "percentage" 50%float 0%float (Some 200%float)
            (Some (utcnow sample_env)) (utcnow sample_env + 30 * 86400 * 1000000)
            (Some 100) 0 true.

(** [response.get_json()[key]], as a client reads a field of a row. *)
Definition json_field (name : string) (j : json) : option json :=
  match j with
  | JObj fields => option_map snd (find (fun kv => fst kv =? name) fields)
  | _ => None
  end.

(** One row is at least as new as another. *)
Definition newer_or_same (a b : Order.t) : Prop :=
  Order.created_at b <= Order.created_at a.

(** Every order names a stored service. *)
Definition services_known (db : Db) : Prop :=
  Forall (fun o => order_service db o <> None) (orders db).

(** The customer orders again the next day. *)
Definition second_order_db : Db :=
  fst (state_after (create_order next_day_env sample_order
                      (assigned_db, Some sample_customer))
                   (assigned_db, Some sample_customer)).

(** Every order names a stored customer. *)
Definition customers_known (db : Db) : Prop :=
  Forall (fun o => order_customer db o <> None) (orders db).

(** The stored data hang together: user keys are unique, the session names
    a stored user, and every order names a stored customer and service. *)
Definition coherent (st : State) : Prop :=
  NoDup (map User.id (users (fst st)))
  /\ session_known st
  /\ services_known (fst st)
  /\ customers_known (fst st).

(** A service taken off the catalogue. *)
Definition retired : Service.t :=
  Service.mk 5 "Squash Restringing" (Some "stringing") 349%float None None false.

Definition retired_db : Db := with_services (services seeded ++ [retired]) seeded.

Definition retired_order : OrderData.t :=
  OrderData.mk (Some 5) None None None None (SlotIso 1700086400000000)
               None None None.

(** * Properties *)

(** ** Tables *)

Section TableFacts.
Context {Row : Type} (pk : Row -> Z).

Lemma get_pk (t : list Row) (i : Z) (r : Row) :
  get pk t i = Some r -> pk r = i.
Proof.
  unfold get. intros H. apply find_some in H. destruct H as [_ H].
  now apply Z.eqb_eq.
Qed.

Lemma get_In (t : list Row) (i : Z) (r : Row) :
  get pk t i = Some r -> In r t.
Proof.
  unfold get. intros H. now apply find_some in H.
Qed.

Lemma pk_le_max (t : list Row) (r : Row) :
  In r t -> pk r <= fold_right Z.max 0 (map pk t).
Proof.
  induction t as [|x t IH]; simpl; [easy|].
  intros [->|H]; [lia|]. specialize (IH H). lia.
Qed.

(** No row has the key the next insertion will get. *)
Lemma get_next_pk (t : list Row) : get pk t (next_pk pk t) = None.
Proof.
  destruct (get pk t (next_pk pk t)) as [r|] eqn:E; [|reflexivity].
  pose proof (get_pk _ _ _ E) as Hk. apply get_In in E.
  apply pk_le_max in E. unfold next_pk in Hk. lia.
Qed.

Lemma get_app_fresh (t : list Row) (r : Row) :
  get pk t (pk r) = None -> get pk (t ++ [r]) (pk r) = Some r.
Proof.
  unfold get. induction t as [|x t IH]; simpl.
  - now rewrite Z.eqb_refl.
  - destruct (pk x =? pk r)%Z; [discriminate|]. exact IH.
Qed.

(** A query whose condition the change leaves alone finds the same row,
    changed when it is the one with key [i]. *)
Lemma find_update (q : Row -> bool) (f : Row -> Row) (t : list Row) (i : Z) :
  (forall r, q (f r) = q r) ->
  find q (update pk t i f) =
  option_map (fun r => if (pk r =? i)%Z then f r else r) (find q t).
Proof.
  intros Hq. unfold update. induction t as [|x t IH]; simpl; [reflexivity|].
  destruct (pk x =? i)%Z eqn:E.
  - rewrite Hq. destruct (q x); simpl; [now rewrite E|exact IH].
  - destruct (q x); simpl; [now rewrite E|exact IH].
Qed.

Lemma get_update (f : Row -> Row) (t : list Row) (i j : Z) :
  (forall r, pk (f r) = pk r) ->
  get pk (update pk t i f) j =
  option_map (fun r => if (pk r =? i)%Z then f r else r) (get pk t j).
Proof.
  intros Hf. unfold get. apply find_update.
  intros r. now rewrite Hf.
Qed.

Lemma map_update {B : Type} (g : Row -> B) (f : Row -> Row) (t : list Row) (i : Z) :
  (forall r, g (f r) = g r) ->
  map g (update pk t i f) = map g t.
Proof.
  intros Hg. unfold update. rewrite map_map. apply map_ext.
  intros r. destruct (pk r =? i)%Z; [apply Hg|reflexivity].
Qed.
End TableFacts.

(** ** Order creation *)




Lemma apply_coupon_expired env db data b s code coupon :
  OrderData.coupon_code data = Some code ->
  coupon_by_code db code = Some coupon ->
  Coupon.valid_until coupon <= utcnow env ->
  apply_coupon env db data b s = (0%float, coupons db).
Proof.
  intros Hc Hf Hexp. unfold apply_coupon. rewrite Hc. simpl get_or. rewrite Hf.
  destruct (str_truthy (Some code)); [|reflexivity].
  destruct (utcnow env <? Coupon.valid_until coupon)%Z eqn:E; [|reflexivity].
  apply Z.ltb_lt in E. lia.
Qed.

(** An active coupon whose [valid_until] lies ahead is applied. *)
Lemma apply_coupon_valid env db data b s code coupon :
  OrderData.coupon_code data = Some code ->
  code <> "" ->
  coupon_by_code db code = Some coupon ->
  utcnow env < Coupon.valid_until coupon ->
  apply_coupon env db data b s =
    (coupon_discount coupon (b + s)%float,
     update Coupon.id (coupons db) (Coupon.id coupon)
            (Coupon.with_usage_count (Coupon.usage_count coupon + 1))).
Proof.
  intros Hc Hne Hf Hv. unfold apply_coupon. rewrite Hc. simpl get_or. rewrite Hf.
  apply Z.ltb_lt in Hv. rewrite Hv.
  destruct code; [congruence|reflexivity].
Qed.

(** When the caller is logged in, the service exists, the pickup slot parses
    and the order number is new, [create_order] answers 201 and stores one
    new order, priced by [apply_coupon]. *)
Lemma create_order_succeeds env data db sess service_id service slot :
  OrderData.service_id data = Some service_id ->
  get Service.id (services db) service_id = Some service ->
  OrderData.pickup_slot data = SlotIso slot ->
  existsb (fun o => Order.order_number o =? "PLR" ++ today env ++ token_hex env)
          (orders db) = false ->
  exists order,
    let string_price := get_or (OrderData.string_price data) 0%float in
    let priced := apply_coupon env db data (Service.base_price service) string_price in
    create_order env data (db, Some sess) =
      Ok ((with_orders (orders db ++ [order]) (with_coupons (snd priced) db), Some sess),
          (JObj [("message", JStr "Order created successfully");
                 ("order_number", JStr (Order.order_number order));
                 ("order_id", JInt (Order.id order));
                 ("total_price", JFloat (Order.total_price order))], 201))
    /\ get Order.id (orders db ++ [order]) (Order.id order) = Some order
    /\ Order.customer_id order = Session.user_id sess
    /\ Order.service_id order = service_id
    /\ Order.base_price order = Service.base_price service
    /\ Order.string_price order = string_price
    /\ Order.discount order = fst priced
    /\ Order.total_price order =
         (Service.base_price service + string_price - fst priced)%float.
Proof.
  intros Hsid Hsvc Hslot Hnew.
  unfold create_order. cbn [snd fst]. rewrite Hsid. cbn [key bind].
  rewrite Hsvc, Hslot. cbn [fromisoformat bind].
  destruct (apply_coupon env db data (Service.base_price service)
              (get_or (OrderData.string_price data) 0%float)) as [discount coupons'] eqn:E.
  rewrite Hnew.
  match goal with |- context [with_orders (orders db ++ [?o])] => exists o end.
  cbn [fst snd].
  split; [reflexivity|].
  split; [|repeat split; reflexivity].
  apply get_app_fresh. apply get_next_pk.
Qed.

(** Those conditions are the only way to a 201: every created order comes
    from a request they hold for. *)
Lemma create_order_created_only_then env data st st' resp :
  create_order env data st = Ok (st', resp) ->
  status_code resp = 201 ->
  exists sess service_id service slot,
    snd st = Some sess
    /\ OrderData.service_id data = Some service_id
    /\ get Service.id (services (fst st)) service_id = Some service
    /\ OrderData.pickup_slot data = SlotIso slot
    /\ existsb (fun o => Order.order_number o =? "PLR" ++ today env ++ token_hex env)
               (orders (fst st)) = false.
Proof.
  unfold create_order. destruct st as [db s]. cbn [fst snd].
  destruct s as [sess|]; [|intros [= <- <-]; discriminate].
  destruct (OrderData.service_id data) as [service_id|] eqn:Hsid; [|discriminate].
  cbn [key bind].
  destruct (get Service.id (services db) service_id) as [service|] eqn:Hsvc;
    [|intros [= <- <-]; discriminate].
  destruct (apply_coupon env db data (Service.base_price service)
              (get_or (OrderData.string_price data) 0%float)) as [discount coupons'].
  destruct (OrderData.pickup_slot data) as [| |slot] eqn:Hslot; try discriminate.
  cbn [fromisoformat bind].
  destruct (existsb _ (orders db)) eqn:Hnew; [discriminate|].
  intros _ _. exists sess, service_id, service, slot. repeat split; assumption.
Qed.



(** [create_order] with a coupon that is active and not yet past its
    [valid_until]: the order carries the coupon's discount and the coupon
    table is the old one with that coupon's usage count raised. *)
Lemma create_order_with_coupon env data db sess service_id service slot code coupon :
  OrderData.service_id data = Some service_id ->
  get Service.id (services db) service_id = Some service ->
  OrderData.pickup_slot data = SlotIso slot ->
  existsb (fun o => Order.order_number o =? "PLR" ++ today env ++ token_hex env)
          (orders db) = false ->
  OrderData.coupon_code data = Some code ->
  code <> "" ->
  coupon_by_code db code = Some coupon ->
  utcnow env < Coupon.valid_until coupon ->
  exists db' order,
    create_order env data (db, Some sess) =
      Ok ((db', Some sess),
          (JObj [("message", JStr "Order created successfully");
                 ("order_number", JStr (Order.order_number order));
                 ("order_id", JInt (Order.id order));
                 ("total_price", JFloat (Order.total_price order))], 201))
    /\ get Order.id (orders db') (Order.id order) = Some order
    /\ coupons db' =
         update Coupon.id (coupons db) (Coupon.id coupon)
                (Coupon.with_usage_count (Coupon.usage_count coupon + 1))
    /\ Order.discount order =
         coupon_discount coupon
           (Service.base_price service + get_or (OrderData.string_price data) 0)%float
    /\ Order.total_price order =
         (Service.base_price service + get_or (OrderData.string_price data) 0
          - Order.discount order)%float.
Proof.
  intros Hsid Hsvc Hslot Hnew Hc Hne Hf Hv.
  destruct (create_order_succeeds env data db sess service_id service slot
              Hsid Hsvc Hslot Hnew)
    as (order & Hrun & Hget & _ & _ & _ & _ & Hd & Ht).
  cbn zeta in *.
  rewrite (apply_coupon_valid _ _ _ _ _ code coupon Hc Hne Hf Hv) in *.
  cbn [fst snd] in *.
  eexists. exists order. split; [exact Hrun|]. cbn [orders coupons with_orders with_coupons].
  repeat split; try assumption. now rewrite Hd.
Qed.

Lemma coupon_by_code_after_use db code coupon n :
  coupon_by_code db code = Some coupon ->
  find (fun c => (Coupon.code c =? code) && Coupon.is_active c)
       (update Coupon.id (coupons db) (Coupon.id coupon) (Coupon.with_usage_count n))
  = Some (Coupon.with_usage_count n coupon).
Proof.
  intros Hf. unfold coupon_by_code in Hf.
  rewrite find_update by (intros []; reflexivity).
  rewrite Hf. cbn [option_map]. now rewrite Z.eqb_refl.
Qed.

(** C2: whenever [create_order] creates an order with a supplied coupon that
    is active and whose [valid_until] is in the future, the coupon's
    [usage_count] afterwards is one more than before; nothing is asked of
    [usage_limit] or [min_order_value]. *)
Theorem create_order_counts_coupon_use env data db sess service_id service slot code coupon :
  OrderData.service_id data = Some service_id ->
  get Service.id (services db) service_id = Some service ->
  OrderData.pickup_slot data = SlotIso slot ->
  existsb (fun o => Order.order_number o =? "PLR" ++ today env ++ token_hex env)
          (orders db) = false ->
  OrderData.coupon_code data = Some code ->
  code <> "" ->
  coupon_by_code db code = Some coupon ->
  utcnow env < Coupon.valid_until coupon ->
  exists db' resp coupon',
    create_order env data (db, Some sess) = Ok ((db', Some sess), resp)
    /\ status_code resp = 201
    /\ coupon_by_code db' code = Some coupon'
    /\ coupon' = Coupon.with_usage_count (Coupon.usage_count coupon + 1) coupon
    /\ Coupon.usage_count coupon' = Coupon.usage_count coupon + 1.
Proof.
  intros Hsid Hsvc Hslot Hnew Hc Hne Hf Hv.
  destruct (create_order_with_coupon env data db sess service_id service slot code coupon
              Hsid Hsvc Hslot Hnew Hc Hne Hf Hv)
    as (db' & order & Hrun & _ & Hcoupons & _).
  exists db'. eexists. eexists. split; [exact Hrun|].
  split; [reflexivity|]. split; [|split; reflexivity].
  unfold coupon_by_code at 1. rewrite Hcoupons.
  now apply coupon_by_code_after_use.
Qed.

Lemma create_order_counts_coupon_use_witness :
  validate_coupon sample_env (CouponData.mk (Some "SPENT") (Some 1000%float))
                  (spent_db, None)
    = Ok ((spent_db, None), error "Coupon usage limit reached" 400)
  /\ exists db' resp coupon',
       create_order sample_env spent_order (spent_db, Some sample_customer)
         = Ok ((db', Some sample_customer), resp)
       /\ status_code resp = 201
       /\ coupon_by_code db' "SPENT" = Some coupon'
       /\ coupon' = Coupon.with_usage_count (Coupon.usage_count spent_coupon + 1) spent_coupon
       /\ Coupon.usage_count coupon' = Coupon.usage_count spent_coupon + 1.
Proof.
  split; [reflexivity|].
  apply (create_order_counts_coupon_use sample_env spent_order spent_db sample_customer
           1 badminton
           1700086400000000 "SPENT" spent_coupon);
    try reflexivity.
  discriminate.
Defined.

(** ** Coupon discounts *)









(** ** Order status updates *)

(** One delivered update by the partner the order is assigned to: the
    handler answers 200, the order is delivered and completed now, the
    partner's counter is one higher, and partner and order are still found
    as before. *)
Lemma update_order_status_delivered env order_id data db sess partner order :
  Session.role sess = "partner" ->
  partner_by_user db (Session.user_id sess) = Some partner ->
  get Order.id (orders db) order_id = Some order ->
  Order.partner_id order = Some (Partner.id partner) ->
  StatusData.status data = Some "delivered" ->
  exists db' partner' order',
    update_order_status env order_id data (db, Some sess) =
      Ok ((db', Some sess), message "Order status updated" 200)
    /\ get Order.id (orders db') order_id = Some order'
    /\ Order.status order' = "delivered"
    /\ Order.completed_at order' = Some (utcnow env)
    /\ Order.partner_id order' = Some (Partner.id partner')
    /\ partner_by_user db' (Session.user_id sess) = Some partner'
    /\ Partner.total_orders partner' = Partner.total_orders partner + 1.
Proof.
  intros Hrole Hp Ho Ha Hs.
  pose proof (get_pk _ _ _ _ Ho) as Hid.
  unfold update_order_status, role_gate. cbn [snd fst]. rewrite Hrole.
  cbn [String.eqb Ascii.eqb Bool.eqb negb]. rewrite Hp, Ho. cbn [attr bind].
  unfold assigned_to. rewrite Ha, Z.eqb_refl. cbn [negb]. rewrite Hs.
  cbn [key bind String.eqb Ascii.eqb Bool.eqb].
  eexists. exists (Partner.with_total_orders (Partner.total_orders partner + 1) partner).
  eexists. split; [reflexivity|].
  cbn [orders partners with_orders with_partners].
  split.
  { rewrite get_update by (intros []; reflexivity).
    rewrite Ho. cbn [option_map]. rewrite Hid, Z.eqb_refl. reflexivity. }
  split; [reflexivity|]. split; [reflexivity|].
  split; [destruct order; exact Ha|].
  split; [|reflexivity].
  unfold partner_by_user in *. cbn [partners with_partners].
  rewrite find_update by (intros []; reflexivity).
  rewrite Hp. cbn [option_map]. now rewrite Z.eqb_refl.
Qed.

(** C5: a status update to "delivered" by the assigned partner sets the
    order's [completed_at] to the current time and raises that partner's
    [total_orders] by exactly 1; repeating the same update on the same order
    raises it again, to 2 above the start. *)
Theorem delivered_increments_total_orders env env2 order_id data db sess partner order :
  Session.role sess = "partner" ->
  partner_by_user db (Session.user_id sess) = Some partner ->
  get Order.id (orders db) order_id = Some order ->
  Order.partner_id order = Some (Partner.id partner) ->
  StatusData.status data = Some "delivered" ->
  exists db1 partner1 order1 db2 partner2,
    update_order_status env order_id data (db, Some sess) =
      Ok ((db1, Some sess), message "Order status updated" 200)
    /\ get Order.id (orders db1) order_id = Some order1
    /\ Order.status order1 = "delivered"
    /\ Order.completed_at order1 = Some (utcnow env)
    /\ partner_by_user db1 (Session.user_id sess) = Some partner1
    /\ Partner.total_orders partner1 = Partner.total_orders partner + 1
    /\ update_order_status env2 order_id data (db1, Some sess) =
         Ok ((db2, Some sess), message "Order status updated" 200)
    /\ partner_by_user db2 (Session.user_id sess) = Some partner2
    /\ Partner.total_orders partner2 = Partner.total_orders partner + 2.
Proof.
  intros Hrole Hp Ho Ha Hs.
  destruct (update_order_status_delivered env order_id data db sess partner order
              Hrole Hp Ho Ha Hs)
    as (db1 & partner1 & order1 & Hrun1 & Ho1 & Hst1 & Hc1 & Ha1 & Hp1 & Hn1).
  destruct (update_order_status_delivered env2 order_id data db1 sess partner1 order1
              Hrole Hp1 Ho1 Ha1 Hs)
    as (db2 & partner2 & order2 & Hrun2 & _ & _ & _ & _ & Hp2 & Hn2).
  exists db1, partner1, order1, db2, partner2.
  repeat split; try assumption. lia.
Qed.

Lemma delivered_increments_total_orders_witness :
  run assigned_day (seeded, None) = (assigned_db, Some sample_partner)
  /\ exists db1 partner1 db2 partner2,
       update_order_status sample_env 1 delivered (assigned_db, Some sample_partner) =
         Ok ((db1, Some sample_partner), message "Order status updated" 200)
       /\ partner_by_user db1 3 = Some partner1
       /\ Partner.total_orders partner1 = 1
       /\ update_order_status sample_env 1 delivered (db1, Some sample_partner) =
            Ok ((db2, Some sample_partner), message "Order status updated" 200)
       /\ partner_by_user db2 3 = Some partner2
       /\ Partner.total_orders partner2 = 2.
Proof.
  split; [vm_compute; reflexivity|].
  edestruct (delivered_increments_total_orders sample_env sample_env 1 delivered
               assigned_db sample_partner)
    as (db1 & partner1 & order1 & db2 & partner2
        & Hrun1 & _ & _ & _ & Hp1 & Hn1 & Hrun2 & Hp2 & Hn2);
    [reflexivity | vm_compute; reflexivity | vm_compute; reflexivity
    | reflexivity | reflexivity | ].
  exists db1, partner1, db2, partner2.
  repeat split; assumption.
Defined.

(** ** Authorization *)

Lemma role_gate_closed role st k :
  match snd st with
  | None => True
  | Some sess => Session.role sess <> role
  end ->
  role_gate role st k = Ok (st, error "Unauthorized" 403).
Proof.
  unfold role_gate. destruct (snd st) as [sess|]; [|reflexivity].
  intros Hne. apply String.eqb_neq in Hne. now rewrite Hne.
Qed.

(** C6, as the code has it: the handlers that only ask for a session
    ([/api/auth/me], order creation, own orders, order detail, partner
    registration) answer a request without a session with 401 "Not
    authenticated"; the partner and admin handlers answer 403 "Unauthorized"
    both to a request without a session and to a session of another role. The
    state is left as it was in every case. *)
Theorem gate_status_codes env req db :
  (access req = Authenticated ->
   handle env req (db, None) = Ok ((db, None), error "Not authenticated" 401))
  /\ (forall role, access req = HasRole role ->
        handle env req (db, None) = Ok ((db, None), error "Unauthorized" 403)
        /\ forall sess, Session.role sess <> role ->
             handle env req (db, Some sess) =
               Ok ((db, Some sess), error "Unauthorized" 403)).
Proof.
  split.
  - destruct req; cbn [access]; intros H; try discriminate H; reflexivity.
  - intros role H.
    destruct req; cbn [access] in H; try discriminate H;
      injection H as <-; (split; [reflexivity|]); intros sess Hne;
      cbn [handle];
      unfold get_partner_orders, update_order_status, get_all_partners,
        approve_partner, get_all_orders, assign_partner, get_analytics;
      now apply role_gate_closed.
Qed.

Lemma gate_status_codes_witness :
  handle sample_env GetOrdersMy (assigned_db, None) =
    Ok ((assigned_db, None), error "Not authenticated" 401)
  /\ handle sample_env GetAdminAnalytics (assigned_db, None) =
       Ok ((assigned_db, None), error "Unauthorized" 403)
  /\ handle sample_env GetAdminAnalytics (assigned_db, Some sample_partner) =
       Ok ((assigned_db, Some sample_partner), error "Unauthorized" 403).
Proof.
  split.
  - apply (proj1 (gate_status_codes sample_env GetOrdersMy assigned_db)).
    reflexivity.
  - destruct (proj2 (gate_status_codes sample_env GetAdminAnalytics assigned_db)
                "admin" eq_refl) as [Hnone Hrole].
    split; [exact Hnone|]. apply Hrole. discriminate.
Defined.

(** C6 as stated fails on the partner and admin families: without a session
    they answer 403, not 401. *)
Lemma role_gated_without_session_is_403 :
  exists r1 r2,
    handle sample_env (GetPartnerOrders None) (seeded, None) = Ok ((seeded, None), r1)
    /\ handle sample_env (GetAdminOrders None) (seeded, None) = Ok ((seeded, None), r2)
    /\ status_code r1 = 403 /\ status_code r1 <> 401
    /\ status_code r2 = 403 /\ status_code r2 <> 401.
Proof.
  eexists. eexists. split; [reflexivity|]. split; [reflexivity|].
  cbn [status_code snd error]. repeat split; discriminate.
Qed.



(** ** Coupon validation *)



(** ** Partner rows *)

Ltac split_cases :=
  match goal with
  | |- context [match ?x with _ => _ end] => destruct x eqn:?
  end.

(** No handler but [register_partner] touches the [user_id] column of the
    partner table. *)
Lemma other_requests_keep_partner_rows env req st :
  (forall data, req <> PostPartnerRegister data) ->
  map Partner.user_id (partners (fst (state_after (handle env req st) st))) =
  map Partner.user_id (partners (fst st)).
Proof.
  intros Hreq. destruct st as [db sess].
  destruct req; try (exfalso; eapply Hreq; reflexivity); cbn [handle];
    unfold register, login, logout, get_current_user, get_services, create_order,
      get_my_orders, get_order_details, validate_coupon, get_partner_orders,
      update_order_status, get_all_partners, approve_partner, get_all_orders,
      assign_partner, get_analytics, role_gate, check_password, bind, key, attr,
      fromisoformat;
    cbn [fst snd];
    repeat split_cases;
    cbn [state_after fst snd partners with_users with_orders with_coupons with_partners];
    try reflexivity;
    apply map_update; intros []; reflexivity.
Qed.

(** [register_partner] by a logged-in user who sends the required fields:
    a new row for that user, whatever rows the table already holds. *)
Lemma register_partner_adds_row env data db sess user
    business_name address city pincode bank_account ifsc_code :
  PartnerData.business_name data = Some business_name ->
  PartnerData.address data = Some address ->
  PartnerData.city data = Some city ->
  PartnerData.pincode data = Some pincode ->
  PartnerData.bank_account data = Some bank_account ->
  PartnerData.ifsc_code data = Some ifsc_code ->
  get User.id (users db) (Session.user_id sess) = Some user ->
  exists db' partner,
    register_partner env data (db, Some sess) =
      Ok ((db', Some (Session.mk (Session.user_id sess) "partner")),
          message "Partner registration submitted for approval" 201)
    /\ partners db' = (partners db ++ [partner])%list
    /\ Partner.user_id partner = Session.user_id sess
    /\ Partner.id partner = next_pk Partner.id (partners db).
Proof.
  intros Hb Ha Hc Hp Hk Hi Hu.
  unfold register_partner. cbn [snd fst].
  rewrite Hb, Ha, Hc, Hp, Hk, Hi, Hu. cbn [key attr bind].
  eexists. eexists. split; [reflexivity|].
  cbn [partners with_users with_partners]. repeat split.
Qed.

(** C9, as the code has it: a user may come to be referenced by several
    Partner rows. Every call of partner registration by a logged-in user with
    the required fields appends one more row carrying that user's id, under
    a new key, without looking at the rows already there, so the number of
    the user's rows goes up by one each time; every other request leaves the
    [user_id]s of the partner table as they were. *)
Theorem partner_rows_per_user env :
  (forall data db sess user business_name address city pincode bank_account ifsc_code,
     PartnerData.business_name data = Some business_name ->
     PartnerData.address data = Some address ->
     PartnerData.city data = Some city ->
     PartnerData.pincode data = Some pincode ->
     PartnerData.bank_account data = Some bank_account ->
     PartnerData.ifsc_code data = Some ifsc_code ->
     get User.id (users db) (Session.user_id sess) = Some user ->
     exists db' partner,
       handle env (PostPartnerRegister data) (db, Some sess) =
         Ok ((db', Some (Session.mk (Session.user_id sess) "partner")),
             message "Partner registration submitted for approval" 201)
       /\ partners db' = (partners db ++ [partner])%list
       /\ Partner.user_id partner = Session.user_id sess
       /\ get Partner.id (partners db) (Partner.id partner) = None
       /\ List.length (filter (fun p => Partner.user_id p =? Session.user_id sess)%Z
                              (partners db'))
          = S (List.length (filter (fun p => Partner.user_id p =? Session.user_id sess)%Z
                                   (partners db))))
  /\ (forall req st,
        (forall data, req <> PostPartnerRegister data) ->
        map Partner.user_id (partners (fst (state_after (handle env req st) st))) =
        map Partner.user_id (partners (fst st))).
Proof.
  split; [|intros req st; apply other_requests_keep_partner_rows].
  intros data db sess user b a c p k i Hb Ha Hc Hp Hk Hi Hu.
  destruct (register_partner_adds_row env data db sess user b a c p k i
              Hb Ha Hc Hp Hk Hi Hu)
    as (db' & partner & Hrun & Hrows & Huid & Hid).
  exists db', partner. cbn [handle].
  split; [exact Hrun|]. split; [exact Hrows|]. split; [exact Huid|].
  split; [rewrite Hid; apply get_next_pk|].
  rewrite Hrows, filter_app, length_app. cbn [filter].
  rewrite Huid, Z.eqb_refl. cbn [List.length]. lia.
Qed.

Lemma partner_rows_per_user_witness :
  run (firstn 2 eager_day) (seeded, None) = (eager_once, Some (Session.mk 2 "partner"))
  /\ List.length (partners eager_once) = 1%nat
  /\ exists db2 p2,
       handle sample_env (PostPartnerRegister partner_profile)
              (eager_once, Some (Session.mk 2 "partner")) =
         Ok ((db2, Some (Session.mk 2 "partner")),
             message "Partner registration submitted for approval" 201)
       /\ partners db2 = (partners eager_once ++ [p2])%list
       /\ Partner.user_id p2 = 2
       /\ List.length (filter (fun p => Partner.user_id p =? 2)%Z (partners db2)) = 2%nat.
Proof.
  split; [vm_compute; reflexivity|]. split; [reflexivity|].
  edestruct (proj1 (partner_rows_per_user sample_env) partner_profile eager_once
               (Session.mk 2 "partner"))
    as (db2 & p2 & Hrun & Hrows & Huid & _ & Hcount);
    try reflexivity.
  exists db2, p2.
  split; [exact Hrun|]. split; [exact Hrows|]. split; [exact Huid|exact Hcount].
Defined.

(** C9 as stated fails: a user who sends the partner registration twice is
    referenced by two Partner rows. *)
Lemma register_partner_twice_two_rows :
  exists p1 p2,
    partners (fst (run eager_day (seeded, None))) = [p1; p2]
    /\ Partner.user_id p1 = 2
    /\ Partner.user_id p2 = 2
    /\ Partner.id p1 = 1
    /\ Partner.id p2 = 2.
Proof.
  eexists. eexists. split; [vm_compute; reflexivity|].
  repeat split.
Qed.

(** ** A partner session without a partner row *)

(** Registration stores the role the caller asks for and opens a session
    with it; the partner table is not touched. *)
Lemma register_with_any_role env data db phone password role :
  RegisterData.phone data = Some phone ->
  RegisterData.password data = Some password ->
  RegisterData.role data = Some role ->
  user_by_phone db phone = None ->
  exists db' resp,
    register env data (db, None) =
      Ok ((db', Some (Session.mk (next_pk User.id (users db)) role)), resp)
    /\ status_code resp = 201
    /\ partners db' = partners db
    /\ orders db' = orders db.
Proof.
  intros Hp Hw Hr Hn. unfold register. cbn [fst]. rewrite Hp. cbn [key bind].
  rewrite Hn, Hw, Hr. cbn [key bind get_or User.id User.role].
  eexists. eexists. split; [reflexivity|]. repeat split.
Qed.

(** C10: with a session whose role is "partner" and no Partner row for its
    user, a status update on an existing order does not answer at all: the
    handler reads [partner.id] on [None] and the [AttributeError] escapes,
    whatever the request body holds. *)
Theorem update_order_status_without_partner_row env order_id data db sess order :
  Session.role sess = "partner" ->
  partner_by_user db (Session.user_id sess) = None ->
  get Order.id (orders db) order_id = Some order ->
  update_order_status env order_id data (db, Some sess) = Raise AttributeError.
Proof.
  intros Hrole Hp Ho. unfold update_order_status, role_gate. cbn [snd fst].
  rewrite Hrole. cbn [String.eqb Ascii.eqb Bool.eqb negb].
  rewrite Hp, Ho. reflexivity.
Qed.

Lemma update_order_status_without_partner_row_witness :
  run rogue_day (seeded, None) = (rogue_db, Some (Session.mk 3 "partner"))
  /\ partners rogue_db = []
  /\ handle sample_env (PutPartnerOrderStatus 1 delivered)
            (rogue_db, Some (Session.mk 3 "partner")) = Raise AttributeError.
Proof.
  split; [vm_compute; reflexivity|]. split; [reflexivity|].
  destruct (get Order.id (orders rogue_db) 1) as [order|] eqn:Ho;
    [|vm_compute in Ho; discriminate Ho].
  cbn [handle].
  apply (update_order_status_without_partner_row sample_env 1 delivered rogue_db
           (Session.mk 3 "partner") order eq_refl eq_refl Ho).
Defined.

(** * Further properties of the handlers *)

(** ** Tables, continued *)

Section MoreTableFacts.
Context {Row : Type} (pk : Row -> Z).

Lemma next_pk_fresh (t : list Row) : ~ In (next_pk pk t) (map pk t).
Proof.
  intros Hin. apply in_map_iff in Hin. destruct Hin as (r & Hk & Hr).
  apply (pk_le_max pk) in Hr. unfold next_pk in Hk. lia.
Qed.

Lemma keys_after_insert (t : list Row) (r : Row) :
  pk r = next_pk pk t ->
  NoDup (map pk t) -> NoDup (map pk (t ++ [r])).
Proof.
  intros Hk Hnd. rewrite map_app. cbn [map].
  apply NoDup_app; [exact Hnd| |].
  - constructor; [intros []|constructor].
  - intros k Hin [<-|[]]. rewrite Hk in Hin. now apply next_pk_fresh in Hin.
Qed.

Lemma keys_after_update (f : Row -> Row) (t : list Row) (i : Z) :
  (forall r, pk (f r) = pk r) ->
  map pk (update pk t i f) = map pk t.
Proof.
  intros Hf. now apply map_update.
Qed.

(** With unique keys, a row of the table is the one its key fetches. *)
Lemma get_of_member (t : list Row) (r : Row) :
  NoDup (map pk t) -> In r t -> get pk t (pk r) = Some r.
Proof.
  unfold get. induction t as [|x t IH]; cbn [map find]; [intros _ []|].
  intros Hnd [->|Hin].
  - now rewrite Z.eqb_refl.
  - inversion Hnd as [|? ? Hx Hrest]; subst.
    destruct (pk x =? pk r)%Z eqn:E; [|now apply IH].
    apply Z.eqb_eq in E. exfalso. apply Hx. rewrite E. now apply in_map.
Qed.

(** Changing the same row twice in the same way is changing it once, when
    the change is idempotent. *)
Lemma update_twice (f : Row -> Row) (t : list Row) (i : Z) :
  (forall r, pk (f r) = pk r) ->
  (forall r, f (f r) = f r) ->
  update pk (update pk t i f) i f = update pk t i f.
Proof.
  intros Hk Hf. unfold update. rewrite map_map. apply map_ext.
  intros r. destruct (pk r =? i)%Z eqn:E.
  - rewrite Hk, E. apply Hf.
  - now rewrite E.
Qed.
End MoreTableFacts.

(** ** What every request preserves *)

(** The pricing step changes the coupon table, if at all, in the usage
    count of the rows under one key. *)
Lemma apply_coupon_table env db data b s :
  snd (apply_coupon env db data b s) = coupons db
  \/ exists coupon,
       snd (apply_coupon env db data b s) =
         update Coupon.id (coupons db) (Coupon.id coupon)
                (Coupon.with_usage_count (Coupon.usage_count coupon + 1)).
Proof.
  unfold apply_coupon.
  destruct (str_truthy (OrderData.coupon_code data)); [|now left].
  destruct (coupon_by_code db _) as [coupon|]; [|now left].
  destruct (utcnow env <? Coupon.valid_until coupon)%Z; [|now left].
  right. now exists coupon.
Qed.

Lemma apply_coupon_keys env db data b s discount coupons' :
  apply_coupon env db data b s = (discount, coupons') ->
  map Coupon.id coupons' = map Coupon.id (coupons db).
Proof.
  intros E. destruct (apply_coupon_table env db data b s) as [H|[coupon H]];
    rewrite E in H; cbn [snd] in H; subst coupons'; [reflexivity|].
  apply keys_after_update. intros []; reflexivity.
Qed.

(** Opens [handle] on every route and every branch of its handler. *)
Ltac handler_cases :=
  cbn [handle];
  unfold register, login, logout, get_current_user, get_services, create_order,
    get_my_orders, get_order_details, validate_coupon, register_partner,
    get_partner_orders, update_order_status, get_all_partners, approve_partner,
    get_all_orders, assign_partner, get_analytics, role_gate, check_password,
    bind, key, attr, fromisoformat;
  cbn [fst snd];
  repeat split_cases;
  cbn [state_after fst snd users partners services orders coupons
       with_users with_orders with_coupons with_partners with_services].

(** X1: every request keeps the primary keys of every table unique: a new
    row gets a key above all the keys in use, and an update never writes the
    key column. *)
Theorem keys_stay_unique env req st :
  keys_unique (fst st) ->
  keys_unique (fst (state_after (handle env req st) st)).
Proof.
  destruct st as [db sess]. unfold keys_unique. cbn [fst].
  intros (Hu & Hp & Hs & Ho & Hc).
  destruct req; handler_cases;
    repeat match goal with
    | E : apply_coupon _ _ _ _ _ = _ |- _ =>
        apply apply_coupon_keys in E; rewrite E; clear E
    end;
    rewrite ?(keys_after_update User.id), ?(keys_after_update Partner.id),
      ?(keys_after_update Order.id) by (intros []; reflexivity);
    repeat split; try assumption;
    apply keys_after_insert; (reflexivity || assumption).
Qed.

Ltac distinct_keys :=
  repeat (constructor; [cbn; intuition congruence|]); try constructor.

Lemma keys_unique_seeded : keys_unique seeded.
Proof.
  unfold keys_unique. cbn. repeat split; distinct_keys.
Qed.

Lemma keys_stay_unique_witness :
  keys_unique seeded
  /\ keys_unique (fst (state_after (handle sample_env (PostAuthRegister sample_signup)
                                          (seeded, None))
                                  (seeded, None))).
Proof.
  split; [exact keys_unique_seeded|].
  apply (keys_stay_unique sample_env (PostAuthRegister sample_signup) (seeded, None)).
  exact keys_unique_seeded.
Defined.

Lemma user_by_phone_unknown db phone :
  user_by_phone db phone = None -> ~ In phone (map User.phone (users db)).
Proof.
  unfold user_by_phone. intros Hf Hin.
  apply in_map_iff in Hin. destruct Hin as (u & Hp & Hu).
  apply (find_none _ _ Hf) in Hu. rewrite Hp, String.eqb_refl in Hu. discriminate.
Qed.

(** X2: no request ever stores two users under one phone number: [register]
    turns a known phone down, and nothing else writes the column. *)
Theorem phones_stay_unique env req st :
  NoDup (map User.phone (users (fst st))) ->
  NoDup (map User.phone (users (fst (state_after (handle env req st) st)))).
Proof.
  destruct st as [db sess]. cbn [fst]. intros Hnd.
  destruct req; handler_cases;
    rewrite ?(map_update User.id User.phone) by (intros []; reflexivity);
    try assumption.
  rewrite map_app. cbn [map User.phone]. apply NoDup_app; [exact Hnd| |].
  - constructor; [intros []|constructor].
  - intros p Hin [<-|[]].
    match goal with H : user_by_phone _ _ = None |- _ =>
      now apply user_by_phone_unknown in H end.
Qed.

Lemma phones_stay_unique_witness :
  NoDup (map User.phone (users seeded))
  /\ NoDup (map User.phone
              (users (fst (state_after (handle sample_env (PostAuthRegister sample_signup)
                                               (seeded, None))
                                       (seeded, None))))).
Proof.
  assert (H : NoDup (map User.phone (users seeded))) by (cbn; distinct_keys).
  split; [exact H|].
  exact (phones_stay_unique sample_env (PostAuthRegister sample_signup) (seeded, None) H).
Defined.

(** How one request moves the user table and the session: it leaves the
    users alone and keeps, clears or opens the session for a stored user
    ([login]); or it adds one user and opens their session ([register]); or
    it turns the logged-in user into a partner, in the table and in the
    session ([register_partner]). *)
Lemma users_and_session_step env req db sess :
  let st' := state_after (handle env req (db, sess)) (db, sess) in
  (users (fst st') = users db
   /\ (snd st' = sess \/ snd st' = None
       \/ exists u, In u (users db)
                    /\ snd st' = Some (Session.mk (User.id u) (User.role u))))
  \/ (exists u,
        users (fst st') = (users db ++ [u])%list
        /\ User.id u = next_pk User.id (users db)
        /\ snd st' = Some (Session.mk (User.id u) (User.role u)))
  \/ (exists s u,
        sess = Some s
        /\ get User.id (users db) (Session.user_id s) = Some u
        /\ users (fst st') =
             update User.id (users db) (User.id u) (User.with_role "partner")
        /\ snd st' = Some (Session.mk (Session.user_id s) "partner")).
Proof.
  cbn zeta.
  destruct req; handler_cases;
    first
      [ left; split; [reflexivity|left; reflexivity]
      | left; split; [reflexivity|right; left; reflexivity]
      | right; left; eexists; repeat split; reflexivity
      | left; split; [reflexivity|];
        right; right; eexists; split; [|reflexivity];
        match goal with H : user_by_phone _ _ = Some _ |- _ =>
          unfold user_by_phone in H; apply find_some in H; exact (proj1 H) end
      | match goal with
        | H : match get User.id ?t ?i with _ => _ end = Ok _ |- _ =>
            destruct (get User.id t i) eqn:?; [injection H as <-|discriminate H]
        end;
        right; right; eexists; eexists; repeat split; eassumption ].
Qed.



(** X4: the reading routes, [POST /api/coupons/validate] among them, leave
    the database and the session exactly as they found them, whatever they
    answer; validating a coupon in particular never counts as a use of it. *)
Theorem reads_change_nothing env req st :
  read_only req = true ->
  state_after (handle env req st) st = st.
Proof.
  intros Hr. destruct st as [db sess].
  destruct req; cbn [read_only] in Hr; try discriminate Hr; clear Hr;
    handler_cases; reflexivity.
Qed.

Lemma reads_change_nothing_witness :
  state_after (handle sample_env
                 (PostCouponsValidate (CouponData.mk (Some "FIRST50") (Some 1000%float)))
                 (seeded, Some sample_customer))
              (seeded, Some sample_customer)
  = (seeded, Some sample_customer).
Proof.
  apply (reads_change_nothing sample_env
           (PostCouponsValidate (CouponData.mk (Some "FIRST50") (Some 1000%float)))
           (seeded, Some sample_customer)).
  reflexivity.
Defined.

Lemma Forall_update {Row : Type} (pk : Row -> Z) (P : Row -> Prop) f t i :
  (forall r, P r -> P (f r)) ->
  Forall P t -> Forall P (update pk t i f).
Proof.
  intros Hf Ht. unfold update. apply Forall_map.
  eapply Forall_impl; [|exact Ht].
  intros r Hr. cbn beta. destruct (pk r =? i)%Z; [now apply Hf|exact Hr].
Qed.



(** X6: no request deletes an order or rewrites what it was created with:
    after any request the stored orders carry the same key, number, customer,
    service and pricing columns as before, in the same order, followed by at
    most one new order. *)
Theorem orders_keep_their_snapshot env req st :
  exists created,
    map snapshot (orders (fst (state_after (handle env req st) st))) =
      (map snapshot (orders (fst st)) ++ map snapshot created)%list
    /\ (List.length created <= 1)%nat.
Proof.
  destruct st as [db sess]. cbn [fst].
  destruct req; handler_cases;
    first
      [ exists []; cbn [map List.length]; rewrite app_nil_r;
        split; [|lia];
        first [ reflexivity | apply map_update; intros []; reflexivity ]
      | eexists [_]; rewrite map_app; split; [reflexivity|cbn; lia] ].
Qed.

(** X7: the coupon table is fixed apart from the usage counts: no request
    adds, removes, deactivates or edits a coupon; the only column any handler
    writes is [usage_count]. *)
Theorem coupons_change_only_in_usage env req st :
  map (Coupon.with_usage_count 0) (coupons (fst (state_after (handle env req st) st))) =
  map (Coupon.with_usage_count 0) (coupons (fst st)).
Proof.
  destruct st as [db sess]. cbn [fst].
  destruct req; handler_cases; try reflexivity.
  match goal with
  | E : apply_coupon ?e ?d ?x ?b ?s = (_, ?c) |- _ =>
      destruct (apply_coupon_table e d x b s) as [H|[coupon H]];
      rewrite E in H; cbn [snd] in H; subst c
  end; [reflexivity|].
  apply map_update. intros []; reflexivity.
Qed.

(** X8: order numbers stay unique: [create_order] fails with an
    [IntegrityError] rather than store a number already in use, and no other
    request writes the column. *)
Theorem order_numbers_stay_unique env req st :
  NoDup (map Order.order_number (orders (fst st))) ->
  NoDup (map Order.order_number (orders (fst (state_after (handle env req st) st)))).
Proof.
  destruct st as [db sess]. cbn [fst]. intros Hnd.
  destruct req; handler_cases;
    rewrite ?(map_update Order.id Order.order_number) by (intros []; reflexivity);
    try assumption.
  rewrite map_app. cbn [map Order.order_number]. apply NoDup_app; [exact Hnd| |].
  - constructor; [intros []|constructor].
  - intros n Hin [<-|[]].
    apply in_map_iff in Hin. destruct Hin as (o & Hn & Ho).
    match goal with H : existsb ?f _ = false |- _ =>
      assert (Hex : existsb f (orders db) = true)
        by (apply existsb_exists; exists o; split;
            [exact Ho|cbn beta; rewrite Hn; apply String.eqb_refl]);
      rewrite Hex in H; discriminate H
    end.
Qed.

Lemma order_numbers_stay_unique_witness :
  NoDup (map Order.order_number (orders assigned_db))
  /\ handle sample_env (PostOrders sample_order) (assigned_db, Some sample_customer)
       = Raise IntegrityError
  /\ NoDup (map Order.order_number
              (orders (fst (state_after
                              (handle sample_env (PostOrders sample_order)
                                      (assigned_db, Some sample_customer))
                              (assigned_db, Some sample_customer))))).
Proof.
  assert (H : NoDup (map Order.order_number (orders assigned_db)))
    by (repeat (constructor; [cbn; intuition congruence|]); constructor).
  split; [exact H|]. split; [vm_compute; reflexivity|].
  exact (order_numbers_stay_unique sample_env (PostOrders sample_order)
           (assigned_db, Some sample_customer) H).
Defined.

(** ** Registration and login *)

Lemma user_by_phone_new db user :
  user_by_phone db (User.phone user) = None ->
  user_by_phone (with_users (users db ++ [user]) db) (User.phone user) = Some user.
Proof.
  unfold user_by_phone. cbn [users with_users].
  induction (users db) as [|x t IH]; cbn [find app].
  - now rewrite String.eqb_refl.
  - destruct (User.phone x =? User.phone user); [discriminate|exact IH].
Qed.

(** X9: registration and login round-trip: after [register] has accepted a
    new phone with a password, [login] with that phone and password,
    whenever the hash check accepts what the hash function made, answers 200
    and opens the same session (same user id, same role) that registration
    opened. *)
Theorem register_then_login env env' data db phone password :
  RegisterData.phone data = Some phone ->
  RegisterData.password data = Some password ->
  user_by_phone db phone = None ->
  check_password_hash env' (generate_password_hash env password) password = true ->
  exists db' sess user,
    register env data (db, None) =
      Ok ((db', Some sess),
          (JObj [("message", JStr "Registration successful");
                 ("user", user_public user)], 201))
    /\ User.phone user = phone
    /\ User.role user = get_or (RegisterData.role data) "customer"
    /\ login env' (LoginData.mk (Some phone) (Some password)) (db', None) =
         Ok ((db', Some sess),
             (JObj [("message", JStr "Login successful");
                    ("user", user_public user)], 200)).
Proof.
  intros Hp Hw Hn Hc. unfold register. cbn [fst]. rewrite Hp. cbn [key bind].
  rewrite Hn, Hw. cbn [key bind].
  eexists. eexists. eexists. split; [reflexivity|].
  split; [reflexivity|]. split; [reflexivity|].
  unfold login. cbn [fst LoginData.phone LoginData.password key bind].
  match goal with
  | |- context [user_by_phone (with_users (users db ++ [?u]) db) phone] =>
      pose proof (user_by_phone_new db u Hn) as Hnew;
      cbn [User.phone] in Hnew; rewrite Hnew
  end.
  unfold check_password. cbn [User.password_hash attr bind]. rewrite Hc. reflexivity.
Qed.

Lemma register_then_login_witness :
  exists db' sess user,
    register sample_env sample_signup (seeded, None) =
      Ok ((db', Some sess),
          (JObj [("message", JStr "Registration successful");
                 ("user", user_public user)], 201))
    /\ sess = sample_customer
    /\ login sample_env (LoginData.mk (Some "9000000001") (Some "s3cret")) (db', None) =
         Ok ((db', Some sess),
             (JObj [("message", JStr "Login successful");
                    ("user", user_public user)], 200)).
Proof.
  destruct (register_then_login sample_env sample_env sample_signup seeded
              "9000000001" "s3cret" eq_refl eq_refl eq_refl eq_refl)
    as (db' & sess & user & Hreg & _ & _ & Hlog).
  exists db', sess, user. split; [exact Hreg|]. split; [|exact Hlog].
  vm_compute in Hreg. now injection Hreg as _ <- _.
Defined.

(** X10: a failed login tells nothing apart: an unknown phone and a known
    phone with a password the hash check refuses get the same 401 "Invalid
    credentials", and neither touches the session or the database. *)
Theorem login_failures_look_alike env data db sess phone password :
  LoginData.phone data = Some phone ->
  LoginData.password data = Some password ->
  (user_by_phone db phone = None ->
   login env data (db, sess) = Ok ((db, sess), error "Invalid credentials" 401))
  /\ (forall user pwhash,
        user_by_phone db phone = Some user ->
        User.password_hash user = Some pwhash ->
        check_password_hash env pwhash password = false ->
        login env data (db, sess) = Ok ((db, sess), error "Invalid credentials" 401)).
Proof.
  intros Hp Hw. unfold login. cbn [fst]. rewrite Hp. cbn [key bind]. split.
  - intros ->. reflexivity.
  - intros user pwhash -> Hh Hc. rewrite Hw. cbn [key bind].
    unfold check_password. rewrite Hh. cbn [attr bind]. now rewrite Hc.
Qed.

Lemma login_failures_look_alike_witness :
  login sample_env (LoginData.mk (Some "9123456789") (Some "admin123")) (seeded, None)
    = Ok ((seeded, None), error "Invalid credentials" 401)
  /\ login sample_env (LoginData.mk (Some "9999999999") (Some "admin124")) (seeded, None)
     = Ok ((seeded, None), error "Invalid credentials" 401).
Proof.
  split.
  - apply (proj1 (login_failures_look_alike sample_env
                    (LoginData.mk (Some "9123456789") (Some "admin123")) seeded None
                    "9123456789" "admin123" eq_refl eq_refl)).
    reflexivity.
  - apply (proj2 (login_failures_look_alike sample_env
                    (LoginData.mk (Some "9999999999") (Some "admin124")) seeded None
                    "9999999999" "admin124" eq_refl eq_refl)
             (User.mk 1 "9999999999" (Some "Admin User") None
                      (Some "pbkdf2$admin123") "admin" (utcnow sample_env))
             "pbkdf2$admin123");
      reflexivity.
Defined.

(** ** Partners and status updates, continued *)



(** X12: the status is not checked against the lifecycle: the assigned
    partner can set any string. A status other than "delivered" is stored,
    [updated_at] moves to now, and neither [completed_at] nor any partner row
    changes, so an order moved back from "delivered" keeps its completion
    time and the partner keeps the count. *)
Theorem update_order_status_any_string env order_id data db sess partner order status :
  Session.role sess = "partner" ->
  partner_by_user db (Session.user_id sess) = Some partner ->
  get Order.id (orders db) order_id = Some order ->
  Order.partner_id order = Some (Partner.id partner) ->
  StatusData.status data = Some status ->
  status <> "delivered" ->
  exists db' order',
    update_order_status env order_id data (db, Some sess) =
      Ok ((db', Some sess), message "Order status updated" 200)
    /\ get Order.id (orders db') order_id = Some order'
    /\ Order.status order' = status
    /\ Order.updated_at order' = utcnow env
    /\ Order.completed_at order' = Order.completed_at order
    /\ partners db' = partners db.
Proof.
  intros Hrole Hp Ho Ha Hs Hne.
  pose proof (get_pk _ _ _ _ Ho) as Hid.
  unfold update_order_status, role_gate. cbn [snd fst]. rewrite Hrole.
  cbn [String.eqb Ascii.eqb Bool.eqb negb]. rewrite Hp, Ho. cbn [attr bind].
  unfold assigned_to. rewrite Ha, Z.eqb_refl. cbn [negb]. rewrite Hs.
  cbn [key bind]. apply String.eqb_neq in Hne. rewrite Hne.
  eexists. exists (Order.with_updated_at (utcnow env) (Order.with_status status order)).
  split; [reflexivity|].
  cbn [orders partners with_orders with_partners].
  split; [|repeat split].
  rewrite get_update by (intros []; reflexivity).
  rewrite Ho. cbn [option_map]. rewrite Hid, Z.eqb_refl. reflexivity.
Qed.

Lemma update_order_status_any_string_witness :
  exists db' order',
    update_order_status sample_env 1 (StatusData.mk (Some "lost in the post"))
      (assigned_db, Some sample_partner) =
      Ok ((db', Some sample_partner), message "Order status updated" 200)
    /\ get Order.id (orders db') 1 = Some order'
    /\ Order.status order' = "lost in the post"
    /\ partners db' = partners assigned_db.
Proof.
  edestruct (update_order_status_any_string sample_env 1
               (StatusData.mk (Some "lost in the post")) assigned_db sample_partner)
    as (db' & order' & Hrun & Hget & Hst & _ & _ & Hpartners);
    [reflexivity | vm_compute; reflexivity | vm_compute; reflexivity
    | reflexivity | reflexivity | discriminate | ].
  exists db', order'. repeat split; assumption.
Defined.

(** X13: approving a partner is idempotent: a second approval of the same
    partner id leaves the state the first one produced, whoever asks (403 and
    404 change nothing at all). *)
Theorem approve_partner_idempotent partner_id st :
  state_after (approve_partner partner_id
                 (state_after (approve_partner partner_id st) st))
              (state_after (approve_partner partner_id st) st)
  = state_after (approve_partner partner_id st) st.
Proof.
  destruct st as [db sess]. unfold approve_partner, role_gate. cbn [snd fst].
  destruct sess as [s|]; [|reflexivity].
  destruct (negb (Session.role s =? "admin")) eqn:Hrole;
    [cbn [state_after snd]; now rewrite Hrole|].
  destruct (get Partner.id (partners db) partner_id) as [partner|] eqn:Hp.
  - pose proof (get_pk _ _ _ _ Hp) as Hid.
    cbn [state_after snd fst partners with_partners]. rewrite Hrole.
    rewrite get_update by (intros []; reflexivity).
    rewrite Hp. cbn [option_map]. rewrite Hid, Z.eqb_refl.
    cbn [state_after Partner.with_status Partner.id]. rewrite Hid.
    unfold with_partners. cbn [users partners services orders coupons].
    rewrite update_twice by (intros []; reflexivity). reflexivity.
  - cbn [state_after snd fst]. now rewrite Hrole, Hp.
Qed.

(** ** Orders and analytics *)





(** ** Validation against creation *)




(** X16: the two paths disagree on a coupon's last instant: when
    [valid_until] equals the current time, [validate_coupon] still accepts
    the coupon (it rejects only [valid_until < now]) while [create_order]
    applies no discount and leaves the usage count alone (it requires
    [valid_until > now]). *)
Theorem coupon_last_instant
    env cdata odata db s sess service_id service slot code coupon :
  coupon_by_code db code = Some coupon ->
  Coupon.valid_until coupon = utcnow env ->
  CouponData.code cdata = Some code ->
  (forall limit, Coupon.usage_limit coupon = Some limit ->
                 Coupon.usage_count coupon < limit) ->
  PrimFloat.ltb (get_or (CouponData.order_value cdata) 0%float)
                (Coupon.min_order_value coupon) = false ->
  OrderData.service_id odata = Some service_id ->
  get Service.id (services db) service_id = Some service ->
  OrderData.pickup_slot odata = SlotIso slot ->
  existsb (fun o => Order.order_number o =? "PLR" ++ today env ++ token_hex env)
          (orders db) = false ->
  OrderData.coupon_code odata = Some code ->
  validate_coupon env cdata (db, s) =
    Ok ((db, s),
        (JObj [("valid", JBool true);
               ("discount",
                JFloat (coupon_discount coupon (get_or (CouponData.order_value cdata) 0%float)));
               ("discount_type", JStr (Coupon.discount_type coupon));
               ("discount_value", JFloat (Coupon.discount_value coupon))], 200))
  /\ exists db' order resp,
       create_order env odata (db, Some sess) = Ok ((db', Some sess), resp)
       /\ status_code resp = 201
       /\ get Order.id (orders db') (Order.id order) = Some order
       /\ Order.discount order = 0%float
       /\ coupons db' = coupons db.
Proof.
  intros Hf Hlast Hc Hl Hmin Hsid Hsvc Hslot Hnew Hcode. split.
  - unfold validate_coupon. cbn [fst]. rewrite Hc. cbn [key bind]. rewrite Hf, Hlast.
    rewrite Z.ltb_irrefl.
    destruct (Coupon.usage_limit coupon) as [limit|] eqn:El;
      cbn [int_truthy get_or andb].
    + specialize (Hl limit eq_refl). apply Z.leb_gt in Hl. rewrite Hl, andb_false_r.
      now rewrite Hmin.
    + now rewrite Hmin.
  - destruct (create_order_succeeds env odata db sess service_id service slot
                Hsid Hsvc Hslot Hnew)
      as (order & Hrun & Hget & _ & _ & _ & _ & Hd & _).
    cbn zeta in *.
    rewrite (apply_coupon_expired env db odata _ _ code coupon Hcode Hf) in *
      by (rewrite Hlast; lia).
    cbn [fst snd] in *.
    eexists. exists order. eexists. split; [exact Hrun|].
    cbn [orders coupons with_orders with_coupons].
    repeat split; assumption.
Qed.

Lemma coupon_last_instant_witness :
  validate_coupon expiry_env (CouponData.mk (Some "FIRST50") (Some 1000%float))
                  (seeded, None) =
    Ok ((seeded, None),
        (JObj [("valid", JBool true);
               ("discount", JFloat 200%float);
               ("discount_type", JStr "percentage");
               ("discount_value", JFloat 50%float)], 200))
  /\ exists db' order resp,
       create_order expiry_env sample_order (seeded, Some sample_customer) =
         Ok ((db', Some sample_customer), resp)
       /\ get Order.id (orders db') (Order.id order) = Some order
       /\ Order.discount order = 0%float
       /\ coupons db' = coupons seeded.
Proof.
  destruct (coupon_last_instant expiry_env
              (CouponData.mk (Some "FIRST50") (Some 1000%float)) sample_order
              seeded None sample_customer 1 badminton 1700086400000000
              "FIRST50" first50)
    as (Hvalid & db' & order & resp & Hrun & _ & Hget & Hd & Hc);
    try reflexivity.
  - intros limit [= <-]. reflexivity.
  - split; [exact Hvalid|].
    exists db', order, resp. repeat split; assumption.
Defined.

(** ** Order detail, continued *)



(** ** The seed *)

Lemma find_after_insert {A : Type} (q : A -> bool) (t : list A) (r : A) :
  find q t = None -> q r = true -> find q (t ++ [r]) = Some r.
Proof.
  intros Hn Hq. induction t as [|x t IH]; cbn [find app] in *.
  - now rewrite Hq.
  - destruct (q x); [discriminate|now apply IH].
Qed.

(** X18: seeding is idempotent: [init_db] adds the admin, the services and
    the coupon only where they are missing, so running it again, at any later
    time, changes nothing. *)
Theorem init_db_idempotent env env' db :
  init_db env' (init_db env db) = init_db env db.
Proof.
  unfold init_db, user_by_phone. cbn [users partners services orders coupons].
  assert (Hu :
    find (fun u => User.phone u =? "9999999999")
         match find (fun u => User.phone u =? "9999999999") (users db) with
         | Some _ => users db
         | None =>
             (users db ++
              [User.mk (next_pk User.id (users db)) "9999999999" (Some "Admin User") None
                       (Some (generate_password_hash env "admin123")) "admin"
                       (utcnow env)])%list
         end <> None).
  { destruct (find _ (users db)) as [u|] eqn:E; [now rewrite E|].
    rewrite find_after_insert; [discriminate|exact E|reflexivity]. }
  destruct (find _ (match find _ (users db) with Some _ => _ | None => _ end))
    as [u|]; [|now contradiction Hu].
  destruct (services db) as [|x xs]; destruct (coupons db) as [|c cs]; reflexivity.
Qed.

(** ** Discount caps *)

Lemma float_ltb_irrefl (x : float) : PrimFloat.ltb x x = false.
Proof.
  rewrite ltb_spec. unfold SpecFloat.SFltb.
  destruct (Prim2SF x) as [s|s| |s m e]; cbn; try reflexivity.
  - destruct s; reflexivity.
  - destruct s; rewrite Z.compare_refl, Pos.compare_cont_refl; reflexivity.
Qed.

(** X19: a percentage discount never exceeds a cap that is set and not
    zero: whatever the order value, the discount value and the rounding,
    [max_discount < discount] is false, on both paths that compute a
    discount. *)
Theorem percentage_discount_within_cap coupon order_value cap :
  Coupon.discount_type coupon = "percentage" ->
  Coupon.max_discount coupon = Some cap ->
  PrimFloat.eqb cap 0 = false ->
  PrimFloat.ltb cap (coupon_discount coupon order_value) = false.
Proof.
  intros Ht Hm Hz. unfold coupon_discount. rewrite Ht, Hm.
  cbn [String.eqb Ascii.eqb Bool.eqb float_truthy get_or]. rewrite Hz. cbn [negb].
  unfold py_min.
  destruct (PrimFloat.ltb cap (order_value * (Coupon.discount_value coupon / 100)))
    eqn:E; [apply float_ltb_irrefl|exact E].
Qed.

Lemma percentage_discount_within_cap_witness :
  coupon_discount first50 123456789%float = 200%float
  /\ PrimFloat.ltb 200 (coupon_discount first50 123456789%float) = false.
Proof.
  split; [reflexivity|].
  apply (percentage_discount_within_cap first50 123456789%float 200%float);
    reflexivity.
Defined.

(** ** Listings *)

Lemma insert_desc_perm o l : Permutation (o :: l) (insert_desc o l).
Proof.
  induction l as [|x l IH]; cbn [insert_desc]; [reflexivity|].
  destruct (Order.created_at x <=? Order.created_at o)%Z; [reflexivity|].
  etransitivity; [apply perm_swap|]. now apply perm_skip.
Qed.

Lemma insert_desc_sorted o l :
  Sorted newer_or_same l -> Sorted newer_or_same (insert_desc o l).
Proof.
  induction l as [|x l IH]; cbn [insert_desc]; intros Hs.
  - repeat constructor.
  - destruct (Order.created_at x <=? Order.created_at o)%Z eqn:E.
    + constructor; [exact Hs|]. constructor. unfold newer_or_same. lia.
    + inversion Hs as [|? ? Hl Hhd]; subst.
      constructor; [now apply IH|].
      destruct l as [|y l]; cbn [insert_desc].
      * constructor. unfold newer_or_same. lia.
      * destruct (Order.created_at y <=? Order.created_at o)%Z.
        -- constructor. unfold newer_or_same. lia.
        -- constructor. now inversion Hhd.
Qed.

Lemma order_by_created_desc_perm l : Permutation l (order_by_created_desc l).
Proof.
  induction l as [|o l IH]; cbn [order_by_created_desc fold_right]; [reflexivity|].
  etransitivity; [apply perm_skip, IH|]. apply insert_desc_perm.
Qed.

Lemma order_by_created_desc_sorted l : Sorted newer_or_same (order_by_created_desc l).
Proof.
  induction l as [|o l IH]; cbn [order_by_created_desc fold_right];
    [constructor|now apply insert_desc_sorted].
Qed.

(** X20: the ordering the three listings use puts the newest order first and
    neither loses nor repeats a row: the result is a permutation of the
    input in which every row is at least as new as all the rows after it. *)
Theorem order_by_created_desc_sorts l :
  Permutation l (order_by_created_desc l)
  /\ StronglySorted newer_or_same (order_by_created_desc l).
Proof.
  split; [apply order_by_created_desc_perm|].
  apply Sorted_StronglySorted; [|apply order_by_created_desc_sorted].
  intros a b c Hab Hbc. unfold newer_or_same in *. lia.
Qed.

Lemma comprehension_rows {A B : Type} (f : A -> Result B) l rows :
  comprehension f l = Ok rows -> Forall2 (fun a b => f a = Ok b) l rows.
Proof.
  revert rows. induction l as [|a l IH]; cbn [comprehension]; intros rows.
  - intros [= <-]. constructor.
  - unfold bind. destruct (f a) as [b|] eqn:Ea; [|discriminate].
    destruct (comprehension f l) as [bs|]; [|discriminate].
    intros [= <-]. constructor; [exact Ea|now apply IH].
Qed.

Lemma comprehension_total {A B : Type} (f : A -> Result B) l :
  (forall a, In a l -> exists b, f a = Ok b) ->
  exists rows, comprehension f l = Ok rows.
Proof.
  induction l as [|a l IH]; cbn [comprehension]; intros Hf; [now eexists|].
  destruct (Hf a (or_introl eq_refl)) as (b & ->).
  destruct IH as (bs & ->); [intros x Hx; apply Hf; now right|].
  cbn [bind]. now eexists.
Qed.

(** X21: [GET /api/orders/my] lists exactly the caller's orders, newest
    first: when every order names a stored service, the handler answers 200
    with one row per order whose [customer_id] is the session's user and no
    other, each row carrying that order's id and total price. *)
Theorem get_my_orders_lists_own db sess :
  services_known db ->
  exists rows,
    get_my_orders (db, Some sess) = Ok ((db, Some sess), (JList rows, 200))
    /\ map (json_field "id") rows =
         map (fun o => Some (JInt (Order.id o)))
             (order_by_created_desc
                (filter (fun o => Order.customer_id o =? Session.user_id sess)%Z
                        (orders db)))
    /\ map (json_field "total_price") rows =
         map (fun o => Some (JFloat (Order.total_price o)))
             (order_by_created_desc
                (filter (fun o => Order.customer_id o =? Session.user_id sess)%Z
                        (orders db))).
Proof.
  intros Hknown. unfold get_my_orders. cbn [snd fst].
  set (mine := order_by_created_desc _).
  set (row := fun o : Order.t => _).
  destruct (comprehension_total row mine) as (rows & Hrows).
  { intros o Ho. subst mine row. cbn beta.
    apply (Permutation_in _ (Permutation_sym (order_by_created_desc_perm _))) in Ho.
    apply filter_In in Ho. destruct Ho as [Ho _].
    unfold services_known in Hknown. rewrite Forall_forall in Hknown.
    specialize (Hknown o Ho).
    destruct (order_service db o) as [service|]; [|now contradiction Hknown].
    cbn [attr bind]. now eexists. }
  rewrite Hrows. cbn [bind]. exists rows. split; [reflexivity|].
  apply comprehension_rows in Hrows. clearbody mine.
  induction Hrows as [|o r l rs Hr _ IH]; [split; reflexivity|].
  destruct IH as [IHid IHtotal]. cbn [map]. rewrite IHid, IHtotal.
  subst row. cbn beta in Hr.
  destruct (order_service db o) as [service|]; [|discriminate Hr].
  cbn [attr bind] in Hr. injection Hr as <-. split; reflexivity.
Qed.

Lemma get_my_orders_lists_own_witness :
  services_known second_order_db
  /\ exists rows,
       get_my_orders (second_order_db, Some sample_customer) =
         Ok ((second_order_db, Some sample_customer), (JList rows, 200))
       /\ map (json_field "id") rows = [Some (JInt 2); Some (JInt 1)].
Proof.
  assert (H : services_known second_order_db)
    by (repeat (constructor; [vm_compute; discriminate|]); constructor).
  split; [exact H|].
  destruct (get_my_orders_lists_own second_order_db sample_customer H)
    as (rows & Hrun & Hids & _).
  exists rows. split; [exact Hrun|]. rewrite Hids. reflexivity.
Defined.

(** X22: no request writes the service table, and an order is only ever
    stored for a service that exists; so once every order names a stored
    service this stays true after any request. *)
Theorem services_stay_known env req st :
  services (fst (state_after (handle env req st) st)) = services (fst st)
  /\ (services_known (fst st) ->
      services_known (fst (state_after (handle env req st) st))).
Proof.
  destruct st as [db sess]. unfold services_known, order_service. cbn [fst].
  destruct req; handler_cases; (split; [reflexivity|]); intros Hk; try assumption;
    try (apply Forall_update; [intros []; cbn; trivial|assumption]).
  apply Forall_app. split; [assumption|].
  constructor; [|constructor]. cbn [Order.service_id].
  match goal with
  | H : match OrderData.service_id _ with _ => _ end = Ok ?i,
    E : get Service.id (services db) ?i = Some _ |- _ => rewrite E; discriminate
  end.
Qed.

Lemma services_stay_known_witness :
  services_known assigned_db
  /\ services_known
       (fst (state_after (handle next_day_env (PostOrders sample_order)
                                 (assigned_db, Some sample_customer))
                         (assigned_db, Some sample_customer))).
Proof.
  assert (H : services_known assigned_db)
    by (repeat (constructor; [vm_compute; discriminate|]); constructor).
  split; [exact H|].
  exact (proj2 (services_stay_known next_day_env (PostOrders sample_order)
                  (assigned_db, Some sample_customer)) H).
Defined.

(** X23: the admin's order listing is capped: whatever the table holds and
    whatever the filter, a 200 from [GET /api/admin/orders] carries at most
    100 rows. *)
Theorem get_all_orders_at_most_100 status_filter st st' rows code :
  get_all_orders status_filter st = Ok (st', (JList rows, code)) ->
  (List.length rows <= 100)%nat.
Proof.
  unfold get_all_orders, role_gate, error.
  destruct (snd st) as [sess|]; [|discriminate].
  destruct (negb (Session.role sess =? "admin")); [discriminate|].
  unfold bind.
  destruct (comprehension _ _) as [rs|] eqn:E; [|discriminate].
  intros [= _ <- _]. apply comprehension_rows in E.
  apply Forall2_length in E. rewrite <- E. apply firstn_le_length.
Qed.

Lemma get_all_orders_at_most_100_witness :
  exists rows,
    get_all_orders None (second_order_db, Some admin_session) =
      Ok ((second_order_db, Some admin_session), (JList rows, 200))
    /\ map (json_field "id") rows = [Some (JInt 2); Some (JInt 1)]
    /\ (List.length rows <= 100)%nat.
Proof.
  destruct (get_all_orders None (second_order_db, Some admin_session))
    as [[st' [[| | | | | | |rows|] code]]|] eqn:E;
    try (vm_compute in E; discriminate E).
  pose proof (get_all_orders_at_most_100 None (second_order_db, Some admin_session)
                st' rows code E) as Hcap.
  vm_compute in E. injection E as <- <- <-.
  eexists. split; [reflexivity|]. split; [reflexivity|exact Hcap].
Defined.

(** X24: [GET /api/partner/orders] is scoped to the caller's partner row:
    when every order names a stored customer and service, a partner gets 200
    with exactly the orders whose [partner_id] is their partner id, narrowed
    to one status when a non-empty filter is given, newest first. *)
Theorem get_partner_orders_lists_assigned status_filter db sess partner :
  Session.role sess = "partner" ->
  partner_by_user db (Session.user_id sess) = Some partner ->
  services_known db ->
  customers_known db ->
  exists rows,
    get_partner_orders status_filter (db, Some sess) =
      Ok ((db, Some sess), (JList rows, 200))
    /\ map (json_field "id") rows =
         map (fun o => Some (JInt (Order.id o)))
             (order_by_created_desc
                (if str_truthy status_filter
                 then filter (fun o => Order.status o =? get_or status_filter "")
                             (filter (assigned_to partner) (orders db))
                 else filter (assigned_to partner) (orders db))).
Proof.
  intros Hrole Hp Hsk Hck. unfold get_partner_orders, role_gate. cbn [snd fst].
  rewrite Hrole. cbn [String.eqb Ascii.eqb Bool.eqb negb]. rewrite Hp.
  set (listed := order_by_created_desc _).
  set (row := fun o : Order.t => _).
  destruct (comprehension_total row listed) as (rows & Hrows).
  { intros o Ho. subst listed row. cbn beta.
    apply (Permutation_in _ (Permutation_sym (order_by_created_desc_perm _))) in Ho.
    assert (Hin : In o (orders db)).
    { destruct (str_truthy status_filter);
        [apply filter_In in Ho; destruct Ho as [Ho _]|];
        apply filter_In in Ho; exact (proj1 Ho). }
    unfold services_known, customers_known in *. rewrite Forall_forall in Hsk, Hck.
    specialize (Hsk o Hin). specialize (Hck o Hin).
    destruct (order_customer db o) as [customer|]; [|now contradiction Hck].
    destruct (order_service db o) as [service|]; [|now contradiction Hsk].
    cbn [attr bind]. now eexists. }
  rewrite Hrows. cbn [bind]. exists rows. split; [reflexivity|].
  apply comprehension_rows in Hrows. fold listed. clearbody listed.
  induction Hrows as [|o r l rs Hr _ IH]; [reflexivity|].
  cbn [map]. rewrite IH. subst row. cbn beta in Hr.
  destruct (order_customer db o) as [customer|]; [|discriminate Hr].
  destruct (order_service db o) as [service|]; [|discriminate Hr].
  cbn [attr bind] in Hr. injection Hr as <-. reflexivity.
Qed.

Lemma get_partner_orders_lists_assigned_witness :
  exists rows,
    get_partner_orders (Some "assigned") (second_order_db, Some sample_partner) =
      Ok ((second_order_db, Some sample_partner), (JList rows, 200))
    /\ map (json_field "id") rows = [Some (JInt 1)].
Proof.
  edestruct (get_partner_orders_lists_assigned (Some "assigned") second_order_db
               sample_partner)
    as (rows & Hrun & Hids);
    [ reflexivity | vm_compute; reflexivity
    | repeat (constructor; [vm_compute; discriminate|]); constructor
    | repeat (constructor; [vm_compute; discriminate|]); constructor | ].
  exists rows. split; [exact Hrun|]. rewrite Hids. vm_compute. reflexivity.
Defined.

(** ** Assignment *)



(** ** Creation is all or nothing *)

(** X26: [create_order] either answers 201 or leaves everything as it was:
    no coupon is used up, and nothing else is written, by a request that is
    turned down (401, 404) or that fails (missing key, unreadable pickup
    slot, order number already used). *)
Theorem create_order_all_or_nothing env data st :
  state_after (create_order env data st) st = st
  \/ exists st' resp,
       create_order env data st = Ok (st', resp) /\ status_code resp = 201.
Proof.
  destruct st as [db sess]. unfold create_order. cbn [snd fst].
  destruct sess as [s|]; [|now left].
  destruct (OrderData.service_id data) as [service_id|]; [|now left].
  cbn [key bind].
  destruct (get Service.id (services db) service_id) as [service|]; [|now left].
  destruct (apply_coupon _ _ _ _ _) as [discount coupons'].
  destruct (OrderData.pickup_slot data); [now left|now left|].
  cbn [fromisoformat bind].
  destruct (existsb _ _); [now left|].
  right. eexists. eexists. split; reflexivity.
Qed.

(** ** Reachable states *)

Lemma get_after_insert {Row : Type} (pk : Row -> Z) (t : list Row) (r : Row) (i : Z) :
  get pk t i <> None -> get pk (t ++ [r]) i <> None.
Proof.
  unfold get. induction t as [|x t IH]; cbn [find app]; [easy|].
  destruct (pk x =? i)%Z; [easy|exact IH].
Qed.

Lemma get_after_update {Row : Type} (pk : Row -> Z) (f : Row -> Row)
    (t : list Row) (i j : Z) :
  (forall r, pk (f r) = pk r) ->
  get pk t j <> None -> get pk (update pk t i f) j <> None.
Proof.
  intros Hf Hj. rewrite get_update by exact Hf.
  destruct (get pk t j); [discriminate|easy].
Qed.

(** One request keeps the session pointing at a stored user. *)
Lemma session_known_step env req st :
  NoDup (map User.id (users (fst st))) ->
  session_known st ->
  NoDup (map User.id (users (fst (state_after (handle env req st) st))))
  /\ session_known (state_after (handle env req st) st).
Proof.
  destruct st as [db sess]. intros Hnd Hk.
  pose proof (users_and_session_step env req db sess) as Hstep. cbn zeta in Hstep.
  destruct (state_after (handle env req (db, sess)) (db, sess)) as [db' sess'].
  unfold session_known in *. cbn [fst snd] in *.
  destruct Hstep as [(Hus & Hs)|[(u & Hus & Hid & Hs)|(s & u & -> & Hu & Hus & Hs)]];
    rewrite Hus; split.
  - exact Hnd.
  - destruct Hs as [->|[->|(u & Hin & ->)]]; [exact Hk|exact I|].
    exists u. cbn [Session.user_id Session.role].
    split; [now apply get_of_member|reflexivity].
  - now apply keys_after_insert.
  - rewrite Hs. exists u. cbn [Session.user_id Session.role].
    split; [|reflexivity]. apply get_app_fresh. rewrite Hid. apply get_next_pk.
  - rewrite keys_after_update by (intros []; reflexivity). exact Hnd.
  - rewrite Hs. cbn [Session.user_id Session.role].
    exists (User.with_role "partner" u). split; [|reflexivity].
    rewrite get_update by (intros []; reflexivity).
    rewrite Hu. cbn [option_map]. pose proof (get_pk _ _ _ _ Hu) as Hid.
    rewrite Hid, Z.eqb_refl. reflexivity.
Qed.

(** One request keeps every order's customer in the user table. *)
Lemma customers_known_step env req st :
  session_known st ->
  customers_known (fst st) ->
  customers_known (fst (state_after (handle env req st) st)).
Proof.
  destruct st as [db sess]. unfold customers_known, session_known, order_customer.
  cbn [fst snd]. intros Hs Hk.
  destruct req; handler_cases; try assumption;
    first
      [ eapply Forall_impl; [|exact Hk]; intros o Ho; cbn beta in *;
        first [ now apply get_after_insert
              | apply get_after_update; [intros []; reflexivity|exact Ho] ]
      | apply Forall_update; [intros []; cbn; trivial|assumption]
      | apply Forall_app; split; [assumption|];
        constructor; [|constructor]; cbn [Order.customer_id];
        destruct Hs as (user & -> & _); discriminate ].
Qed.

Lemma services_known_step env req st :
  services_known (fst st) ->
  services_known (fst (state_after (handle env req st) st)).
Proof.
  destruct st as [db sess]. unfold services_known, order_service. cbn [fst].
  destruct req; handler_cases; intros Hk; try assumption;
    try (apply Forall_update; [intros []; cbn; trivial|assumption]).
  apply Forall_app. split; [assumption|].
  constructor; [|constructor]. cbn [Order.service_id].
  match goal with
  | E : get Service.id (services db) _ = Some _ |- _ => rewrite E; discriminate
  end.
Qed.

Lemma in_first_rows {A : Type} (n : nat) (l : list A) (x : A) :
  In x (firstn n l) -> In x l.
Proof.
  intros H. rewrite <- (firstn_skipn n l). apply in_or_app. now left.
Qed.

Lemma coherent_run reqs st : coherent st -> coherent (run reqs st).
Proof.
  revert st. induction reqs as [|[env req] reqs IH]; intros st Hc; cbn [run];
    [exact Hc|].
  apply IH. destruct Hc as (Hnd & Hs & Hsv & Hcu).
  destruct (session_known_step env req st Hnd Hs) as [Hnd' Hs'].
  repeat split; [exact Hnd'|exact Hs'|now apply services_known_step
                |now apply customers_known_step].
Qed.

(** X27: the order listings cannot fail on a dangling reference: from a
    state whose data hang together (the seeded database is one), after any
    sequence of requests whatever, the data still hang together and the
    admin's [GET /api/admin/orders] answers 200 with the newest orders, 100 at
    most, none missing below that. *)
Theorem listings_survive_any_history reqs st admin :
  coherent st ->
  Session.role admin = "admin" ->
  coherent (run reqs st)
  /\ exists rows,
       get_all_orders None (fst (run reqs st), Some admin) =
         Ok ((fst (run reqs st), Some admin), (JList rows, 200))
       /\ map (json_field "id") rows =
            map (fun o => Some (JInt (Order.id o)))
                (firstn 100 (order_by_created_desc (orders (fst (run reqs st))))).
Proof.
  intros Hc Hrole. apply (coherent_run reqs) in Hc. split; [exact Hc|].
  destruct Hc as (_ & _ & Hsk & Hck).
  destruct (run reqs st) as [db sess]. cbn [fst] in *.
  unfold get_all_orders, role_gate. cbn [snd fst str_truthy]. rewrite Hrole.
  cbn [String.eqb Ascii.eqb Bool.eqb negb].
  set (listed := firstn 100 _).
  set (row := fun o : Order.t => _).
  destruct (comprehension_total row listed) as (rows & Hrows).
  { intros o Ho. subst listed row. cbn beta.
    apply in_first_rows in Ho.
    apply (Permutation_in _ (Permutation_sym (order_by_created_desc_perm _))) in Ho.
    unfold services_known, customers_known in *. rewrite Forall_forall in Hsk, Hck.
    specialize (Hsk o Ho). specialize (Hck o Ho).
    destruct (order_customer db o) as [customer|]; [|now contradiction Hck].
    destruct (order_service db o) as [service|]; [|now contradiction Hsk].
    cbn [attr bind]. now eexists. }
  rewrite Hrows. cbn [bind]. exists rows. split; [reflexivity|].
  apply comprehension_rows in Hrows. fold listed. clearbody listed.
  induction Hrows as [|o r l rs Hr _ IH]; [reflexivity|].
  cbn [map]. rewrite IH. subst row. cbn beta in Hr.
  destruct (order_customer db o) as [customer|]; [|discriminate Hr].
  destruct (order_service db o) as [service|]; [|discriminate Hr].
  cbn [attr bind] in Hr. injection Hr as <-. reflexivity.
Qed.

Lemma listings_survive_any_history_witness :
  coherent (run reassigned_day (seeded, None))
  /\ exists rows,
       get_all_orders None (reassigned_db, Some admin_session) =
         Ok ((reassigned_db, Some admin_session), (JList rows, 200))
       /\ map (json_field "id") rows = [Some (JInt 1)].
Proof.
  destruct (listings_survive_any_history reassigned_day (seeded, None) admin_session)
    as (Hc & rows & Hrun & Hids).
  - split; [cbn; distinct_keys|]. split; [exact I|]. split; constructor.
  - reflexivity.
  - split; [exact Hc|]. exists rows. split; [exact Hrun|].
    rewrite Hids. vm_compute. reflexivity.
Defined.

(** ** The catalogue *)

(** X28: a service that is not active is hidden, not closed: with unique
    service keys its id is absent from the rows of [GET /api/services], yet
    [POST /api/orders] naming it is accepted with 201, since order creation
    never looks at [is_active]. *)
Theorem inactive_service_hidden_but_orderable
    env data db s sess service_id service slot :
  NoDup (map Service.id (services db)) ->
  get Service.id (services db) service_id = Some service ->
  Service.is_active service = false ->
  OrderData.service_id data = Some service_id ->
  OrderData.pickup_slot data = SlotIso slot ->
  existsb (fun o => Order.order_number o =? "PLR" ++ today env ++ token_hex env)
          (orders db) = false ->
  (exists rows,
     get_services (db, s) = Ok ((db, s), (JList rows, 200))
     /\ map (json_field "id") rows =
          map (fun x => Some (JInt (Service.id x)))
              (filter Service.is_active (services db))
     /\ ~ In (Some (JInt service_id)) (map (json_field "id") rows))
  /\ (exists st' resp,
        create_order env data (db, Some sess) = Ok (st', resp)
        /\ status_code resp = 201).
Proof.
  intros Hnd Hsvc Hoff Hsid Hslot Hnew. split.
  - unfold get_services. cbn [fst]. eexists. split; [reflexivity|].
    assert (Hids : forall l,
      map (json_field "id")
          (map (fun x =>
                  JObj [("id", JInt (Service.id x));
                        ("name", JStr (Service.name x));
                        ("category", jstr (Service.category x));
                        ("base_price", JFloat (Service.base_price x));
                        ("description", jstr (Service.description x));
                        ("image_url", jstr (Service.image_url x))]) l)
      = map (fun x => Some (JInt (Service.id x))) l)
      by (intros l; rewrite map_map; reflexivity).
    rewrite Hids. split; [reflexivity|].
    intros Hin. apply in_map_iff in Hin. destruct Hin as (x & Hx & Hin).
    apply filter_In in Hin. destruct Hin as [Hin Hon].
    injection Hx as Hx.
    pose proof (get_of_member Service.id _ _ Hnd Hin) as Hget.
    rewrite Hx, Hsvc in Hget. injection Hget as <-.
    rewrite Hoff in Hon. discriminate.
  - destruct (create_order_succeeds env data db sess service_id service slot
                Hsid Hsvc Hslot Hnew) as (order & Hrun & _).
    cbn zeta in Hrun. eexists. eexists. split; [exact Hrun|reflexivity].
Qed.

Lemma inactive_service_hidden_but_orderable_witness :
  (exists rows,
     get_services (retired_db, None) = Ok ((retired_db, None), (JList rows, 200))
     /\ map (json_field "id") rows =
          [Some (JInt 1); Some (JInt 2); Some (JInt 3); Some (JInt 4)])
  /\ (exists st' resp,
        create_order sample_env retired_order (retired_db, Some sample_customer) =
          Ok (st', resp)
        /\ status_code resp = 201).
Proof.
  destruct (inactive_service_hidden_but_orderable sample_env retired_order retired_db
              None sample_customer 5 retired 1700086400000000)
    as ((rows & Hrun & Hids & _) & Horder); try reflexivity.
  - cbn. distinct_keys.
  - split; [|exact Horder]. exists rows. split; [exact Hrun|]. rewrite Hids. reflexivity.
Defined.
